(** * Session lifecycle and balance deduction of the coworking admin panel

    A shallow embedding of [startSession] and [endSession] of
    [src/components/SessionManagement.tsx] over an explicit model of the
    backing tables ([user_sessions], [user_subscriptions], [users],
    [subscription_plans]) and of the effects the two handlers have: writes to
    the store, toasts shown to the acting staff, [console.error] lines and the
    outbound webhook request. *)

From Stdlib Require Import ZArith QArith Qround Lia.
From stdpp Require Import base option list gmap strings pretty sorting.

Local Open Scope string_scope.
Local Open Scope Z_scope.

(** ** JavaScript numbers

    Every number the two handlers compute with is integer valued
    (millisecond time stamps, minutes, hours), so it is modelled in [Z]; the
    quotient of a division is an exact rational, to which [Math.ceil] and
    [Math.floor] are applied.  (IEEE doubles agree with this as long as the
    elapsed time stays below 2^53 ms.) *)

Module Math.

Definition ceil (x : Q) : Z := Qceiling x.
Definition floor (x : Q) : Z := Qfloor x.
Definition max (a b : Z) : Z := Z.max a b.

End Math.

(** [a / b] of two integer-valued JavaScript numbers. *)
Definition js_div (a b : Z) : Q := (inject_Z a / inject_Z b)%Q.

(** [a % b]: the sign follows the dividend. *)
Definition js_rem (a b : Z) : Z := Z.rem a b.

(** [durationMinutes] and [hoursDeducted] of [endSession], from the two
    [getTime()] values in milliseconds. *)
Definition durationMinutes (endTime startTime : Z) : Z :=
  Math.ceil (js_div (endTime - startTime) (1000 * 60)).

Definition hoursDeducted (durationMinutes : Z) : Z :=
  Math.ceil (js_div durationMinutes 60).

(** [m] is the ceiling of the quotient [a / b], for a positive [b]:
    [m - 1 < a / b <= m]. *)
Definition is_ceiling (m a b : Z) : Prop := b * (m - 1) < a ∧ a ≤ b * m.

(** [new Date().toISOString().split('T')[0]]: the UTC calendar day of a time
    stamp.  Days are numbered from the epoch, so that comparing two [date]
    values is comparing their numbers. *)
Definition iso_date (now : Z) : Z := now / 86400000.

(** ** The backing store

    Rows carry the columns the component reads or writes.  A table is a finite
    map from its primary key [id] (a uuid, a string on the client) to the row,
    which makes the primary-key constraint part of the type. *)

Abbreviation Uuid := string (only parsing).

(** [status text CHECK (status IN ('active', 'completed'))] *)
Inductive SessionStatus := active | completed.

(** [status text CHECK (status IN ('active', 'expired', 'cancelled'))] *)
Inductive SubscriptionStatus := sub_active | sub_expired | sub_cancelled.

#[global] Instance SessionStatus_eq_dec : EqDecision SessionStatus.
Proof. solve_decision. Defined.

#[global] Instance SubscriptionStatus_eq_dec : EqDecision SubscriptionStatus.
Proof. solve_decision. Defined.

Record UserRow := {
  name : string;
  email : string;
  whatsapp : option string;
}.

Record SubscriptionPlan := {
  plan_name : string;
}.

(** [hours_remaining] is a [numeric] column; plans grant whole hours and this
    component only ever subtracts whole hours, so balances are integers here. *)
Record UserSubscription := {
  sub_user_id : Uuid;
  subscription_plan_id : Uuid;
  hours_remaining : Z;
  end_date : Z;
  sub_status : SubscriptionStatus;
}.

(** Time stamps are counted in milliseconds, as [new Date(...).getTime()]
    reads them.  A uuid is never the empty string, so that a key is truthy
    exactly when it is not [null]. *)
Record UserSession := {
  user_id : Uuid;
  user_subscription_id : option Uuid;
  start_time : Z;
  end_time : option Z;
  duration_minutes : option Z;
  hours_deducted : option Z;
  status : SessionStatus;
  started_by : Uuid;
  ended_by : option Uuid;
}.

Record Store := {
  users : gmap string UserRow;
  subscription_plans : gmap string SubscriptionPlan;
  user_subscriptions : gmap string UserSubscription;
  user_sessions : gmap string UserSession;
}.

(** ** The PostgREST client

    A request answers with a pair [{ data, error }].  [.single()] asks for
    exactly one row: with no row, and with more than one, the answer is no data
    and the error [PGRST116] ("JSON object requested, multiple (or no) rows
    returned"). *)

Record PostgrestError := { code : string }.

Abbreviation Response A := (option A * option PostgrestError)%type.

Definition single {A} (rows : list A) : Response A :=
  match rows with
  | [row] => (Some row, None)
  | _ => (None, Some {| code := "PGRST116" |})
  end.

(** A request the store could not serve (network, policy, constraint) answers
    with the error alone. *)
Definition request {A} (fault : option PostgrestError) (answer : Response A) : Response A :=
  match fault with
  | Some e => (None, Some e)
  | None => answer
  end.

(** [from('user_sessions').select('id').eq('user_id', userId).eq('status', 'active')] *)
Definition active_sessions_of (db : Store) (userId : Uuid) : list (Uuid * UserSession) :=
  map_to_list (filter (λ kv, user_id kv.2 = userId ∧ status kv.2 = active) (user_sessions db)).

(** [from('user_subscriptions').select('id, hours_remaining').eq('user_id', userId)
    .eq('status', 'active').gte('end_date', today)] *)
Definition valid_subscriptions_of (db : Store) (userId : Uuid) (today : Z)
    : list (Uuid * UserSubscription) :=
  map_to_list (filter (λ kv, sub_user_id kv.2 = userId ∧ sub_status kv.2 = sub_active
                              ∧ today ≤ end_date kv.2)
                      (user_subscriptions db)).

(** The embedded resources [user:user_id (...)] and
    [user_subscription:user_subscription_id (..., subscription_plan:subscription_plan_id (name))]
    of the select in [endSession]: each is [null] when the key is [null] or
    names no row. *)
Record SubscriptionJoin := {
  j_hours_remaining : Z;
  j_subscription_plan : option SubscriptionPlan;
}.

Record SessionJoin := {
  j_id : Uuid;
  j_user_id : Uuid;
  j_user_subscription_id : option Uuid;
  j_start_time : Z;
  j_user : option UserRow;
  j_user_subscription : option SubscriptionJoin;
}.

Definition join_subscription (db : Store) (sub : UserSubscription) : SubscriptionJoin :=
  {| j_hours_remaining := hours_remaining sub;
     j_subscription_plan := subscription_plans db !! subscription_plan_id sub |}.

Definition join_session (db : Store) (id : Uuid) (s : UserSession) : SessionJoin :=
  {| j_id := id;
     j_user_id := user_id s;
     j_user_subscription_id := user_subscription_id s;
     j_start_time := start_time s;
     j_user := users db !! user_id s;
     j_user_subscription :=
       sub_id ← user_subscription_id s;
       join_subscription db <$> user_subscriptions db !! sub_id |}.

(** [.eq('id', sessionId)] on a primary key selects at most one row. *)
Definition session_by_id (db : Store) (sessionId : Uuid) : list SessionJoin :=
  match user_sessions db !! sessionId with
  | Some s => [join_session db sessionId s]
  | None => []
  end.

(** ** Effects of a handler

    What a handler leaves behind: the store, the toasts shown to the acting
    staff, the [console.error] lines, the requests sent to the webhook and the
    two pieces of component state that disable the buttons. *)

Inductive Toast := toast_error (msg : string) | toast_success (msg : string).

Inductive JsError :=
| PgError (e : PostgrestError)   (* an [error] of the client, thrown *)
| TypeError                      (* a property read on [null] *)
| FetchError.                    (* [fetch] rejected *)

Record CustomerData := {
  c_name : string;
  c_email : string;
  c_whatsapp : option string;
}.

Record SessionDetails := {
  d_start_time : Z;
  d_end_time : Z;
  d_duration_minutes : Z;
  d_hours_deducted : Z;
  d_subscription_plan : option string;
  d_hours_remaining : Z;
}.

Record WebhookBody := {
  action : string;
  b_sessionId : Uuid;
  b_userId : Uuid;
  customerData : CustomerData;
  sessionDetails : SessionDetails;
  endedBy : option string;
  timestamp : Z;
}.

Record World := {
  db : Store;
  toasts : list Toast;
  console : list (string * JsError);
  webhook_requests : list WebhookBody;
  startingSession : option Uuid;
  endingSession : option Uuid;
}.

(** What a call of a handler gets from outside: the signed-in staff member of
    [useAuth()], the clocks, the uuid the database draws for a new row, which
    requests the store fails to serve, and whether [fetch] rejects. *)

Record AuthUser := { auth_id : Uuid; auth_name : string }.

Inductive Call :=
| check_active | get_subscription | insert_session
| load_session | update_session | update_subscription.

Record Env := {
  user : option AuthUser;
  client_now : Z;          (* [new Date()] in the browser, ms *)
  webhook_now : Z;         (* the later [new Date()] of the webhook body *)
  db_now : Z;              (* [now()] on the database server, ms *)
  gen_random_uuid : Uuid;
  fault : Call → option PostgrestError;
  fetch_rejects : bool;
}.

(** A computation runs on a world and completes normally or throws. *)
Inductive Completion (A : Type) := Normal (a : A) | Throw (e : JsError).
Arguments Normal {A} a.
Arguments Throw {A} e.

Definition M (A : Type) : Type := World → World * Completion A.

#[global] Instance M_ret : MRet M := λ A a w, (w, Normal a).

#[global] Instance M_bind : MBind M := λ A B f m w,
  match m w with
  | (w', Normal a) => f a w'
  | (w', Throw e) => (w', Throw e)
  end.

Definition throw {A} (e : JsError) : M A := λ w, (w, Throw e).

Definition try_catch {A} (body : M A) (handler : JsError → M A) : M A := λ w,
  match body w with
  | (w', Normal a) => (w', Normal a)
  | (w', Throw e) => handler e w'
  end.

Definition try_finally {A} (body : M A) (finalizer : M unit) : M A := λ w,
  match body w with
  | (w', c) =>
    match finalizer w' with
    | (w'', Normal _) => (w'', c)
    | (w'', Throw e) => (w'', Throw e)
    end
  end.

Definition set_db (w : World) (d : Store) : World :=
  {| db := d; toasts := toasts w; console := console w;
     webhook_requests := webhook_requests w;
     startingSession := startingSession w; endingSession := endingSession w |}.

Definition toast (t : Toast) : M unit := λ w,
  ({| db := db w; toasts := toasts w ++ [t]; console := console w;
      webhook_requests := webhook_requests w;
      startingSession := startingSession w; endingSession := endingSession w |},
   Normal ()).

Definition console_error (label : string) (e : JsError) : M unit := λ w,
  ({| db := db w; toasts := toasts w; console := console w ++ [(label, e)];
      webhook_requests := webhook_requests w;
      startingSession := startingSession w; endingSession := endingSession w |},
   Normal ()).

Definition setStartingSession (v : option Uuid) : M unit := λ w,
  ({| db := db w; toasts := toasts w; console := console w;
      webhook_requests := webhook_requests w;
      startingSession := v; endingSession := endingSession w |},
   Normal ()).

Definition setEndingSession (v : option Uuid) : M unit := λ w,
  ({| db := db w; toasts := toasts w; console := console w;
      webhook_requests := webhook_requests w;
      startingSession := startingSession w; endingSession := v |},
   Normal ()).

(** A read request: the answer is computed on the current store. *)
Definition select {A} (q : Store → Response A) : M (Response A) := λ w, (w, Normal (q (db w))).

(** A write request: the store changes unless the request fails. *)
Definition write (q : Store → Store + PostgrestError) : M (option PostgrestError) := λ w,
  match q (db w) with
  | inl d => (set_db w d, Normal None)
  | inr e => (w, Normal (Some e))
  end.

(** [fetch(url, { method: 'POST', ... body })] *)
Definition fetch (env : Env) (body : WebhookBody) : M unit := λ w,
  ({| db := db w; toasts := toasts w; console := console w;
      webhook_requests := webhook_requests w ++ [body];
      startingSession := startingSession w; endingSession := endingSession w |},
   if fetch_rejects env then Throw FetchError else Normal ()).

(** [if (error && error.code !== 'PGRST116') throw error] *)
Definition throw_unless_PGRST116 (error : option PostgrestError) : M unit :=
  match error with
  | Some e => if decide (code e ≠ "PGRST116") then throw (PgError e) else mret ()
  | None => mret ()
  end.

(** [if (error) throw error] *)
Definition throw_if (error : option PostgrestError) : M unit :=
  match error with
  | Some e => throw (PgError e)
  | None => mret ()
  end.

(** ** Writes to the store

    The uuid of a new row and its [start_time] come from the database
    ([DEFAULT gen_random_uuid()], [DEFAULT now()]); [started_by] is declared
    [NOT NULL] (error 23502) and [id] is the primary key (error 23505).  Any
    other refusal of the store (foreign keys, row-level policies, the network)
    is a [fault] of the call. *)

Definition set_user_sessions (d : Store) (t : gmap string UserSession) : Store :=
  {| users := users d; subscription_plans := subscription_plans d;
     user_subscriptions := user_subscriptions d; user_sessions := t |}.

Definition set_user_subscriptions (d : Store) (t : gmap string UserSubscription) : Store :=
  {| users := users d; subscription_plans := subscription_plans d;
     user_subscriptions := t; user_sessions := user_sessions d |}.

(** [insert({ user_id, user_subscription_id, started_by, status: 'active' })] *)
Definition new_session (env : Env) (userId subscriptionId staff : Uuid) : UserSession :=
  {| user_id := userId;
     user_subscription_id := Some subscriptionId;
     start_time := db_now env;
     end_time := None;
     duration_minutes := None;
     hours_deducted := Some 0;
     status := active;
     started_by := staff;
     ended_by := None |}.

Definition insert_user_session (env : Env) (userId subscriptionId : Uuid) (d : Store)
    : Store + PostgrestError :=
  match fault env insert_session with
  | Some e => inr e
  | None =>
    match user env with
    | None => inr {| code := "23502" |}
    | Some staff =>
      match user_sessions d !! gen_random_uuid env with
      | Some _ => inr {| code := "23505" |}
      | None =>
        inl (set_user_sessions d
               (<[gen_random_uuid env := new_session env userId subscriptionId (auth_id staff)]>
                  (user_sessions d)))
      end
    end
  end.

(** [update({ end_time, duration_minutes, hours_deducted, status: 'completed',
    ended_by: user?.id })]; an [undefined] value leaves its column alone. *)
Definition end_row (env : Env) (endTime durationMinutes hoursDeducted : Z) (s : UserSession)
    : UserSession :=
  {| user_id := user_id s;
     user_subscription_id := user_subscription_id s;
     start_time := start_time s;
     end_time := Some endTime;
     duration_minutes := Some durationMinutes;
     hours_deducted := Some hoursDeducted;
     status := completed;
     started_by := started_by s;
     ended_by := match user env with
                 | Some staff => Some (auth_id staff)
                 | None => ended_by s
                 end |}.

Definition update_user_session (env : Env) (sessionId : Uuid)
    (endTime durationMinutes hoursDeducted : Z) (d : Store) : Store + PostgrestError :=
  match fault env update_session with
  | Some e => inr e
  | None =>
    inl (set_user_sessions d
           (alter (end_row env endTime durationMinutes hoursDeducted) sessionId (user_sessions d)))
  end.

(** [update({ hours_remaining: newHoursRemaining }).eq('id', ...)] *)
Definition set_hours_remaining (h : Z) (s : UserSubscription) : UserSubscription :=
  {| sub_user_id := sub_user_id s;
     subscription_plan_id := subscription_plan_id s;
     hours_remaining := h;
     end_date := end_date s;
     sub_status := sub_status s |}.

Definition update_user_subscription (env : Env) (subscriptionId : Uuid) (newHoursRemaining : Z)
    (d : Store) : Store + PostgrestError :=
  match fault env update_subscription with
  | Some e => inr e
  | None =>
    inl (set_user_subscriptions d
           (alter (set_hours_remaining newHoursRemaining) subscriptionId (user_subscriptions d)))
  end.

(** ** The two handlers

    Each handler ends by calling [fetchActiveSessions()] without awaiting it;
    that call only re-reads the list the component shows, after the handler
    has returned, and is not part of the handler here: it is added in
    [startSession_then_refresh] and [endSession_then_refresh] below. *)

Definition startSession (env : Env) (userId : Uuid) : M unit :=
  setStartingSession (Some userId);;
  try_finally
    (try_catch
       ('(existingSession, checkError) ←
          select (λ d, request (fault env check_active)
                         (single ((active_sessions_of d userId).*1)));
        throw_unless_PGRST116 checkError;;
        match existingSession with
        | Some _ => toast (toast_error "User already has an active session")
        | None =>
          '(subscription, subError) ←
            select (λ d, request (fault env get_subscription)
                           (single (valid_subscriptions_of d userId (iso_date (client_now env)))));
          throw_unless_PGRST116 subError;;
          match subscription with
          | None => toast (toast_error "User does not have an active subscription")
          | Some (subscription_id, subscription) =>
            if decide (hours_remaining subscription ≤ 0)
            then toast (toast_error "User has no remaining hours in their subscription")
            else
              error ← write (insert_user_session env userId subscription_id);
              throw_if error;;
              toast (toast_success "Session started successfully")
          end
        end)
       (λ error,
          console_error "Error starting session:" error;;
          toast (toast_error "Failed to start session")))
    (setStartingSession None).

(** The JSON body of the webhook request; reading [session.user.name] throws
    when the embedded user is [null]. *)
Definition webhook_body (env : Env) (sessionId : Uuid) (session : SessionJoin)
    (endTime durationMinutes hoursDeducted : Z) : M WebhookBody :=
  match j_user session with
  | None => throw TypeError
  | Some u =>
    mret {| action := "session_ended";
            b_sessionId := sessionId;
            b_userId := j_user_id session;
            customerData := {| c_name := name u; c_email := email u; c_whatsapp := whatsapp u |};
            sessionDetails :=
              {| d_start_time := j_start_time session;
                 d_end_time := endTime;
                 d_duration_minutes := durationMinutes;
                 d_hours_deducted := hoursDeducted;
                 d_subscription_plan :=
                   sub ← j_user_subscription session;
                   plan_name <$> j_subscription_plan sub;
                 d_hours_remaining :=
                   match j_user_subscription session with
                   | Some sub => Math.max 0 (j_hours_remaining sub - hoursDeducted)
                   | None => 0
                   end |};
            endedBy := auth_name <$> user env;
            timestamp := webhook_now env |}
  end.

Definition session_ended_message (durationMinutes hoursDeducted : Z) : string :=
  "Session ended. Duration: " +:+ pretty (Math.floor (js_div durationMinutes 60)) +:+ "h "
    +:+ pretty (js_rem durationMinutes 60) +:+ "m. Hours deducted: " +:+ pretty hoursDeducted.

Definition endSession (env : Env) (sessionId : Uuid) : M unit :=
  setEndingSession (Some sessionId);;
  try_finally
    (try_catch
       ('(session, sessionError) ←
          select (λ d, request (fault env load_session) (single (session_by_id d sessionId)));
        throw_if sessionError;;
        match session with
        | None => throw TypeError
        | Some session =>
          let endTime := client_now env in
          let startTime := j_start_time session in
          let durationMinutes := durationMinutes endTime startTime in
          let hoursDeducted := hoursDeducted durationMinutes in
          updateError ←
            write (update_user_session env sessionId endTime durationMinutes hoursDeducted);
          throw_if updateError;;
          match j_user_subscription_id session with
          | Some subscription_id =>
            match j_user_subscription session with
            | None => throw TypeError
            | Some user_subscription =>
              let newHoursRemaining :=
                Math.max 0 (j_hours_remaining user_subscription - hoursDeducted) in
              subUpdateError ←
                write (update_user_subscription env subscription_id newHoursRemaining);
              throw_if subUpdateError
            end
          | None => mret ()
          end;;
          try_catch
            (body ← webhook_body env sessionId session endTime durationMinutes hoursDeducted;
             fetch env body)
            (λ webhookError, console_error "Webhook failed:" webhookError);;
          toast (toast_success (session_ended_message durationMinutes hoursDeducted))
        end)
       (λ error,
          console_error "Error ending session:" error;;
          toast (toast_error "Failed to end session")))
    (setEndingSession None).

(** ** Sequences of staff actions *)

Inductive Action := Start (userId : Uuid) | End (sessionId : Uuid).

Definition perform (ea : Env * Action) (w : World) : World :=
  match ea.2 with
  | Start userId => (startSession ea.1 userId w).1
  | End sessionId => (endSession ea.1 sessionId w).1
  end.

Definition run (actions : list (Env * Action)) (w : World) : World :=
  foldl (λ w ea, perform ea w) w actions.

(** What one action may do to the status of the session [sessionId]; [None]
    is a session that does not exist. *)
Inductive transition (sessionId : Uuid)
  : Action → option SessionStatus → option SessionStatus → Prop :=
| unchanged a st : transition sessionId a st st
| created userId : transition sessionId (Start userId) None (Some active)
| ended : transition sessionId (End sessionId) (Some active) (Some completed).

(** The same call with another outcome of [fetch]. *)
Definition with_fetch_rejects (b : bool) (env : Env) : Env :=
  {| user := user env; client_now := client_now env; webhook_now := webhook_now env;
     db_now := db_now env; gen_random_uuid := gen_random_uuid env;
     fault := fault env; fetch_rejects := b |}.

(** The status of a session in a world, if the row exists. *)
Definition status_of (w : World) (sessionId : Uuid) : option SessionStatus :=
  status <$> user_sessions (db w) !! sessionId.

(** The balance of a subscription in a world, if the row exists. *)
Definition balance_of (w : World) (subscriptionId : Uuid) : option Z :=
  hours_remaining <$> user_subscriptions (db w) !! subscriptionId.

(** ** Outcomes as the staff sees them

    The handlers report an outcome as a toast; these are the toasts of the
    error taxonomy. *)

Definition AlreadyActive : Toast := toast_error "User already has an active session".
Definition NoSubscription : Toast := toast_error "User does not have an active subscription".
Definition InsufficientBalance : Toast :=
  toast_error "User has no remaining hours in their subscription".
Definition StartStoreError : Toast := toast_error "Failed to start session".
Definition EndStoreError : Toast := toast_error "Failed to end session".
Definition SessionStarted : Toast := toast_success "Session started successfully".

(** ** Invariants of the store *)

(** The intended invariant of [user_sessions]: a user has at most one active
    session. *)
Definition one_active_per_user (w : World) : Prop :=
  ∀ id1 id2 s1 s2,
    user_sessions (db w) !! id1 = Some s1 → user_sessions (db w) !! id2 = Some s2 →
    user_id s1 = user_id s2 → status s1 = active → status s2 = active → id1 = id2.

(** No balance is negative. *)
Definition balances_nonnegative (w : World) : Prop :=
  ∀ subscriptionId sub,
    user_subscriptions (db w) !! subscriptionId = Some sub → 0 ≤ hours_remaining sub.

(** The check for an active session is served, or fails with an error of its
    own (PGRST116 is the answer of [.single()], not a failure of the store). *)
Definition check_answers (env : Env) : Prop :=
  ∀ e, fault env check_active = Some e → code e ≠ "PGRST116".

(** ** A small club, for concrete runs *)

Module Club.

Definition ann : UserRow := {| name := "Ann"; email := "ann@example.org"; whatsapp := None |}.
Definition bob : AuthUser := {| auth_id := "staff-1"; auth_name := "Bob" |}.

Definition subscription (balance : Z) (status : SubscriptionStatus) : UserSubscription :=
  {| sub_user_id := "ann"; subscription_plan_id := "basic"; hours_remaining := balance;
     end_date := 20000; sub_status := status |}.

Definition session (started : Z) (status : SessionStatus) : UserSession :=
  {| user_id := "ann"; user_subscription_id := Some "sub-1"; start_time := started;
     end_time := None; duration_minutes := None; hours_deducted := Some 0;
     status := status; started_by := "staff-1"; ended_by := None |}.

Definition store (subs : gmap string UserSubscription) (sessions : gmap string UserSession)
    : Store :=
  {| users := {[ "ann" := ann ]};
     subscription_plans := {[ "basic" := {| plan_name := "Basic Plan" |} ]};
     user_subscriptions := subs;
     user_sessions := sessions |}.

Definition world (d : Store) : World :=
  {| db := d; toasts := []; console := []; webhook_requests := [];
     startingSession := None; endingSession := None |}.

(** A call at client time [now] that the store serves. *)
Definition env (now : Z) (rejects : bool) : Env :=
  {| user := Some bob; client_now := now; webhook_now := now + 1; db_now := now;
     gen_random_uuid := "s-new"; fault := λ _, None; fetch_rejects := rejects |}.

(** Ann has one session, started at time 0, on a subscription with [balance] hours. *)
Definition one_session (balance : Z) : World :=
  world (store {[ "sub-1" := subscription balance sub_active ]}
               {[ "s-1" := session 0 active ]}).

(** Ann has two active sessions and five hours left. *)
Definition two_sessions : World :=
  world (store {[ "sub-1" := subscription 5 sub_active ]}
               {[ "s-1" := session 0 active; "s-2" := session 1000 active ]}).

(** Ann has no session, and a subscription with [balance] hours and [status]. *)
Definition no_session (balance : Z) (status : SubscriptionStatus) : World :=
  world (store {[ "sub-1" := subscription balance status ]} ∅).

Definition minute : Z := 60000.
Definition day : Z := 86400000.

End Club.

(** ** What the component shows

    The running duration on the card of an active session, the list of active
    sessions the component keeps, the buttons it disables and the user search.
    [fetchUsers] reads the customers from a [role] column, ordered by the
    collation of the database, and is left out: the list of users is taken as
    the component holds it. *)

(** [getSessionDuration], with the [new Date()] it reads as [now]. *)
Definition getSessionDuration (now startTime : Z) : string :=
  let diffMinutes := Math.floor (js_div (now - startTime) (1000 * 60)) in
  let hours := Math.floor (js_div diffMinutes 60) in
  let minutes := js_rem diffMinutes 60 in
  pretty hours +:+ "h " +:+ pretty minutes +:+ "m".

(** The rows of [fetchActiveSessions]: [id, user_id, start_time, status] with
    the embedded [user (name, email)] and
    [user_subscription (hours_remaining, subscription_plan (name))]. *)
Record UserSummary := {
  s_name : string;
  s_email : string;
}.

Record ActiveSession := {
  a_id : Uuid;
  a_user_id : Uuid;
  a_start_time : Z;
  a_status : SessionStatus;
  a_user : option UserSummary;
  a_user_subscription : option SubscriptionJoin;
}.

Definition list_session (d : Store) (id : Uuid) (s : UserSession) : ActiveSession :=
  {| a_id := id;
     a_user_id := user_id s;
     a_start_time := start_time s;
     a_status := status s;
     a_user := (λ u, {| s_name := name u; s_email := email u |}) <$> users d !! user_id s;
     a_user_subscription :=
       sub_id ← user_subscription_id s;
       join_subscription d <$> user_subscriptions d !! sub_id |}.

(** [.order('start_time', { ascending: false })] *)
Definition later_first (a b : ActiveSession) : Prop := a_start_time b ≤ a_start_time a.

#[global] Instance later_first_dec a b : Decision (later_first a b).
Proof. unfold later_first. apply _. Defined.

(** [from('user_sessions').select(...).eq('status', 'active').order('start_time', ...)];
    rows with the same [start_time] come in an order the database chooses. *)
Definition active_sessions_listing (d : Store) : list ActiveSession :=
  merge_sort later_first
    ((λ kv, list_session d kv.1 kv.2)
       <$> map_to_list (filter (λ kv, status kv.2 = active) (user_sessions d))).

(** The component: the effects so far and the list of active sessions held. *)
Record Page := {
  world : World;
  activeSessions : list ActiveSession;
}.

(** [fetchActiveSessions]: [setActiveSessions(data || [])] when the request is
    served, a console line and a toast when it is not. *)
Definition fetchActiveSessions (fault : option PostgrestError) (p : Page) : Page :=
  match
    try_catch
      ('(data, error) ← select (λ d, request fault (Some (active_sessions_listing d), None));
       throw_if error;;
       mret (Some (default [] data)))
      (λ error,
         console_error "Error fetching active sessions:" error;;
         toast (toast_error "Failed to load active sessions");;
         mret None)
      (world p)
  with
  | (w, Normal (Some sessions)) => {| world := w; activeSessions := sessions |}
  | (w, _) => {| world := w; activeSessions := activeSessions p |}
  end.

(** The handlers with the refresh they launch.  Right after its success toast
    (lines 148 and 252) a handler calls [fetchActiveSessions()] without
    awaiting it (lines 149 and 253), and on no other path; the answer is read
    once the handler has returned.  The toast a handler shows is the last one
    it leaves, so the success path is the one that leaves a success toast
    last. *)
Definition shows_success (w : World) : bool :=
  match last (toasts w) with
  | Some (toast_success _) => true
  | _ => false
  end.

Definition startSession_then_refresh (env : Env) (refresh : option PostgrestError)
    (userId : Uuid) (p : Page) : Page :=
  let w := (startSession env userId (world p)).1 in
  let p' := {| world := w; activeSessions := activeSessions p |} in
  if shows_success w then fetchActiveSessions refresh p' else p'.

Definition endSession_then_refresh (env : Env) (refresh : option PostgrestError)
    (sessionId : Uuid) (p : Page) : Page :=
  let w := (endSession env sessionId (world p)).1 in
  let p' := {| world := w; activeSessions := activeSessions p |} in
  if shows_success w then fetchActiveSessions refresh p' else p'.

(** The toast of a refresh that failed. *)
Definition RefreshError : Toast := toast_error "Failed to load active sessions".

Record User := {
  u_id : Uuid;
  u_name : string;
  u_email : string;
}.

(** [activeSessions.some(session => session.user_id === u.id)] *)
Definition hasActiveSession (activeSessions : list ActiveSession) (u : User) : bool :=
  existsb (λ session, String.eqb (a_user_id session) (u_id u)) activeSessions.

(** [disabled={startingSession === u.id || hasActiveSession}] of the Start button *)
Definition start_disabled (p : Page) (u : User) : bool :=
  bool_decide (startingSession (world p) = Some (u_id u))
  || hasActiveSession (activeSessions p) u.

(** [s.includes(t)]: [t] occurs in [s]. *)
Fixpoint includes (s t : string) : bool :=
  String.prefix t s
  || match s with
     | EmptyString => false
     | String _ s' => includes s' t
     end.

Section Search.

(** [String.prototype.toLowerCase], whatever it does to each string. *)
Variable toLowerCase : string → string.

Definition matches (searchTerm : string) (u : User) : bool :=
  includes (toLowerCase (u_name u)) (toLowerCase searchTerm)
  || includes (toLowerCase (u_email u)) (toLowerCase searchTerm).

Definition filteredUsers (users : list User) (searchTerm : string) : list User :=
  List.filter (matches searchTerm) users.

End Search.

(** Lower case of the letters A to Z, for concrete searches. *)
Definition ascii_lower (c : Ascii.ascii) : Ascii.ascii :=
  let n := Ascii.nat_of_ascii c in
  if bool_decide (65 ≤ n ≤ 90)%nat then Ascii.ascii_of_nat (n + 32) else c.

Fixpoint ascii_toLowerCase (s : string) : string :=
  match s with
  | EmptyString => EmptyString
  | String c s' => String (ascii_lower c) (ascii_toLowerCase s')
  end.

(** * Properties *)

(** ** Ceilings *)

Section Ceiling.

Lemma js_div_pos a p : js_div a (Z.pos p) = (a # p)%Q.
Proof.
  unfold js_div, Qdiv, Qinv, Qmult, inject_Z; simpl.
  by rewrite Z.mul_1_r.
Qed.

Lemma ceil_js_div a b : 0 < b → Math.ceil (js_div a b) = - ((- a) / b).
Proof.
  destruct b as [|p|p]; try lia. intros _.
  rewrite js_div_pos. reflexivity.
Qed.

Lemma ceil_is_ceiling a b : 0 < b → is_ceiling (Math.ceil (js_div a b)) a b.
Proof.
  intros Hb. unfold is_ceiling. rewrite ceil_js_div by done.
  pose proof (Z.div_mod (- a) b ltac:(lia)).
  pose proof (Z.mod_pos_bound (- a) b Hb). nia.
Qed.

Lemma is_ceiling_unique b a m n :
  0 < b → is_ceiling m a b → is_ceiling n a b → m = n.
Proof. unfold is_ceiling. intros. nia. Qed.

Lemma durationMinutes_is_ceiling T1 T0 :
  is_ceiling (durationMinutes T1 T0) (T1 - T0) 60000.
Proof. apply (ceil_is_ceiling (T1 - T0) (1000 * 60)). lia. Qed.

Lemma hoursDeducted_is_ceiling dm : is_ceiling (hoursDeducted dm) dm 60.
Proof. apply ceil_is_ceiling. lia. Qed.

(** Rounding up to minutes and then to hours is rounding up to hours. *)
Lemma hoursDeducted_durationMinutes T1 T0 :
  is_ceiling (hoursDeducted (durationMinutes T1 T0)) (T1 - T0) 3600000.
Proof.
  pose proof (durationMinutes_is_ceiling T1 T0) as Hm.
  pose proof (hoursDeducted_is_ceiling (durationMinutes T1 T0)) as Hh.
  unfold is_ceiling in *. lia.
Qed.

End Ceiling.

(** ** Answers of the store *)

Section Queries.

Context {A : Type} (P : string * A → Prop) `{!∀ x, Decision (P x)}.

Lemma filter_none (m : gmap string A) :
  (∀ k v, m !! k = Some v → ¬ P (k, v)) → map_to_list (filter P m) = [].
Proof.
  intros Hnone. replace (filter P m) with (∅ : gmap string A).
  - apply map_to_list_empty.
  - symmetry. apply map_empty. intros k.
    apply map_lookup_filter_None. destruct (m !! k) eqn:E; [right|by left].
    intros x [= <-]. by apply Hnone.
Qed.

Lemma filter_one (m : gmap string A) k v :
  m !! k = Some v → P (k, v) →
  (∀ k' v', m !! k' = Some v' → P (k', v') → k' = k) →
  map_to_list (filter P m) = [(k, v)].
Proof.
  intros Hk HP Huniq. replace (filter P m) with ({[k := v]} : gmap string A).
  - apply map_to_list_singleton.
  - apply map_eq. intros k'. destruct (decide (k' = k)) as [->|Hne].
    + rewrite lookup_singleton_eq. symmetry. by apply map_lookup_filter_Some.
    + rewrite lookup_singleton_ne by done. symmetry.
      apply map_lookup_filter_None. destruct (m !! k') eqn:E; [right|by left].
      intros x [= <-] HP'. apply Hne. by eapply Huniq.
Qed.

End Queries.

(** ** Running the handlers *)

Ltac exec :=
  unfold try_finally, try_catch, select, write, toast, console_error,
    throw_if, throw_unless_PGRST116, setStartingSession, setEndingSession,
    fetch, webhook_body, request, set_db;
  unfold throw, mbind, M_bind, mret, M_ret;
  simpl.

Ltac exec_end :=
  unfold endSession, session_by_id, update_user_session, update_user_subscription;
  exec.

Section EndSession.

Variables (env : Env) (sessionId : Uuid) (w : World) (s : UserSession).

Hypothesis session_found : user_sessions (db w) !! sessionId = Some s.
Hypothesis load_served : fault env load_session = None.
Hypothesis update_served : fault env update_session = None.

Let endTime := client_now env.
Let minutes := durationMinutes endTime (start_time s).
Let hours := hoursDeducted minutes.

(** Once the session is loaded and its update served, the row is the
    completed one, whatever happens to the later steps. *)
Lemma endSession_session_row :
  user_sessions (db (endSession env sessionId w).1) !! sessionId
  = Some (end_row env endTime minutes hours s).
Proof.
  exec_end. rewrite session_found, load_served. simpl. rewrite update_served. simpl.
  repeat case_match; simpl; simplify_eq/=; rewrite ?lookup_alter_eq, ?session_found; done.
Qed.

(** A session without subscription: no balance is touched. *)
Lemma endSession_unlinked :
  user_subscription_id s = None →
  user_subscriptions (db (endSession env sessionId w).1) = user_subscriptions (db w)
  ∧ toasts (endSession env sessionId w).1
    = (toasts w ++ [toast_success (session_ended_message minutes hours)])%list.
Proof.
  intros Hnone. exec_end.
  rewrite session_found, load_served. simpl. rewrite update_served, Hnone. simpl.
  repeat case_match; simpl; simplify_eq/=; done.
Qed.

(** A session with a subscription whose update is served. *)
Lemma endSession_linked subscriptionId sub :
  user_subscription_id s = Some subscriptionId →
  user_subscriptions (db w) !! subscriptionId = Some sub →
  fault env update_subscription = None →
  user_subscriptions (db (endSession env sessionId w).1) !! subscriptionId
  = Some (set_hours_remaining (Math.max 0 (hours_remaining sub - hours)) sub)
  ∧ toasts (endSession env sessionId w).1
    = (toasts w ++ [toast_success (session_ended_message minutes hours)])%list.
Proof.
  intros Hlink Hsub Hserved. exec_end.
  rewrite session_found, load_served. simpl.
  rewrite update_served, Hlink. simpl. rewrite Hsub. simpl. rewrite Hserved. simpl.
  repeat case_match; simpl; simplify_eq/=; rewrite ?lookup_alter_eq, ?Hsub; done.
Qed.

End EndSession.

(** The outcome of [fetch] shows in the console and nowhere else. *)
Lemma endSession_fetch_irrelevant b env sessionId w :
  db (endSession (with_fetch_rejects b env) sessionId w).1 = db (endSession env sessionId w).1
  ∧ toasts (endSession (with_fetch_rejects b env) sessionId w).1
    = toasts (endSession env sessionId w).1
  ∧ (endSession (with_fetch_rejects b env) sessionId w).2 = (endSession env sessionId w).2.
Proof.
  exec_end.
  destruct (fault env load_session); simpl; [done|].
  destruct (user_sessions (db w) !! sessionId) as [s|]; simpl; [|done].
  destruct (fault env update_session); simpl; [done|].
  destruct (user_subscription_id s) as [subscriptionId|]; simpl.
  - destruct (user_subscriptions (db w) !! subscriptionId) as [sub|]; simpl; [|done].
    destruct (fault env update_subscription); simpl; [done|].
    destruct (users (db w) !! user_id s); simpl; [|done].
    by destruct b, (fetch_rejects env).
  - destruct (users (db w) !! user_id s); simpl; [|done].
    by destruct b, (fetch_rejects env).
Qed.

Ltac exec_start :=
  unfold startSession, active_sessions_of, valid_subscriptions_of, insert_user_session;
  exec.

Section StartSession.

Variables (env : Env) (userId : Uuid) (w : World).

Hypothesis check_served : fault env check_active = None.

Let today := iso_date (client_now env).

(** Exactly one active session of the user: the check finds it. *)
Lemma startSession_one_active sessionId s :
  user_sessions (db w) !! sessionId = Some s →
  user_id s = userId → status s = active →
  (∀ sessionId' s', user_sessions (db w) !! sessionId' = Some s' →
     user_id s' = userId → status s' = active → sessionId' = sessionId) →
  db (startSession env userId w).1 = db w
  ∧ toasts (startSession env userId w).1 = (toasts w ++ [AlreadyActive])%list.
Proof.
  intros Hs Hu Ha Huniq. exec_start. rewrite check_served.
  erewrite filter_one; [simpl; done| apply Hs | done |].
  intros k' v' Hk' [? ?]. by eapply Huniq.
Qed.

Hypothesis no_active :
  ∀ sessionId s, user_sessions (db w) !! sessionId = Some s →
    user_id s = userId → status s ≠ active.
Hypothesis subscription_served : fault env get_subscription = None.

Lemma startSession_no_subscription :
  (∀ subscriptionId sub, user_subscriptions (db w) !! subscriptionId = Some sub →
     sub_user_id sub = userId → sub_status sub = sub_active → end_date sub < today) →
  db (startSession env userId w).1 = db w
  ∧ toasts (startSession env userId w).1 = (toasts w ++ [NoSubscription])%list.
Proof.
  intros Hnone. exec_start. rewrite check_served.
  rewrite filter_none; [simpl|].
  2:{ intros k v Hk [? ?]. by eapply no_active. }
  rewrite subscription_served.
  rewrite filter_none; [simpl; done|].
  intros k v Hk (Ho & Ha & Hd). simpl in *.
  pose proof (Hnone k v Hk Ho Ha). unfold today in *. lia.
Qed.

Section OneSubscription.

Variables (subscriptionId : Uuid) (sub : UserSubscription).

Hypothesis sub_found : user_subscriptions (db w) !! subscriptionId = Some sub.
Hypothesis sub_owner : sub_user_id sub = userId.
Hypothesis sub_is_active : sub_status sub = sub_active.
Hypothesis sub_in_date : today ≤ end_date sub.
Hypothesis sub_unique :
  ∀ subscriptionId' sub', user_subscriptions (db w) !! subscriptionId' = Some sub' →
    sub_user_id sub' = userId → sub_status sub' = sub_active → today ≤ end_date sub' →
    subscriptionId' = subscriptionId.

Lemma startSession_insufficient :
  hours_remaining sub ≤ 0 →
  db (startSession env userId w).1 = db w
  ∧ toasts (startSession env userId w).1 = (toasts w ++ [InsufficientBalance])%list.
Proof.
  intros Hle. exec_start. rewrite check_served.
  rewrite filter_none; [simpl|].
  2:{ intros k v Hk [? ?]. by eapply no_active. }
  rewrite subscription_served.
  erewrite filter_one; [simpl| apply sub_found | done |].
  2:{ intros k' v' Hk' (? & ? & ?). by eapply sub_unique. }
  rewrite decide_True by done. done.
Qed.

Lemma startSession_started staff :
  0 < hours_remaining sub →
  fault env insert_session = None →
  user env = Some staff →
  user_sessions (db w) !! gen_random_uuid env = None →
  user_sessions (db (startSession env userId w).1)
  = <[gen_random_uuid env := new_session env userId subscriptionId (auth_id staff)]>
      (user_sessions (db w))
  ∧ toasts (startSession env userId w).1 = (toasts w ++ [SessionStarted])%list.
Proof.
  intros Hpos Hins Hstaff Hfresh. exec_start. rewrite check_served.
  rewrite filter_none; [simpl|].
  2:{ intros k v Hk [? ?]. by eapply no_active. }
  rewrite subscription_served.
  erewrite filter_one; [simpl| apply sub_found | done |].
  2:{ intros k' v' Hk' (? & ? & ?). by eapply sub_unique. }
  rewrite decide_False by lia.
  rewrite Hins, Hstaff. simpl. rewrite Hfresh. done.
Qed.

End OneSubscription.

End StartSession.

(** ** Ending a session: what is persisted *)

(** C1: when the end operation loads a session with [start_time = T0] at
    client time [T1 >= T0] and its update is served, the persisted row is
    [completed] with [end_time = T1], [duration_minutes = ceil((T1 - T0) / 60 s)]
    and [hours_deducted = ceil(duration_minutes / 60)]. *)
Theorem end_persists_duration_and_hours env sessionId w s T0 T1 :
  user_sessions (db w) !! sessionId = Some s →
  fault env load_session = None →
  fault env update_session = None →
  start_time s = T0 → client_now env = T1 → T0 ≤ T1 →
  ∃ s' minutes hours,
    user_sessions (db (endSession env sessionId w).1) !! sessionId = Some s'
    ∧ status s' = completed
    ∧ end_time s' = Some T1
    ∧ duration_minutes s' = Some minutes
    ∧ hours_deducted s' = Some hours
    ∧ is_ceiling minutes (T1 - T0) 60000
    ∧ is_ceiling hours minutes 60.
Proof.
  intros Hs Hload Hupd <- <- _.
  eexists _, _, _. split; [by apply endSession_session_row|]. simpl.
  do 4 (split; [reflexivity|]).
  split; [apply durationMinutes_is_ceiling | apply hoursDeducted_is_ceiling].
Qed.

Lemma end_persists_duration_and_hours_witness :
  ∃ s' minutes hours,
    user_sessions (db (endSession (Club.env 3601000 false) "s-1" (Club.one_session 5)).1)
      !! "s-1" = Some s'
    ∧ status s' = completed
    ∧ end_time s' = Some 3601000
    ∧ duration_minutes s' = Some minutes
    ∧ hours_deducted s' = Some hours
    ∧ is_ceiling minutes (3601000 - 0) 60000
    ∧ is_ceiling hours minutes 60.
Proof.
  apply (end_persists_duration_and_hours (Club.env 3601000 false) "s-1"
           (Club.one_session 5) (Club.session 0 active) 0 3601000);
    [vm_compute; reflexivity | reflexivity | reflexivity | reflexivity | reflexivity | lia].
Defined.

(** C9: for an elapsed time of [elapsed] ms, that is [elapsed / 1000] seconds,
    not negative, the persisted [hours_deducted] is the single ceiling
    [ceil(seconds / 3600)] of the two-step rounding, and a positive elapsed
    time is billed at least one hour. *)
Theorem two_step_rounding_is_one_ceiling env sessionId w s elapsed :
  user_sessions (db w) !! sessionId = Some s →
  fault env load_session = None →
  fault env update_session = None →
  client_now env - start_time s = elapsed → 0 ≤ elapsed →
  ∃ s' hours,
    user_sessions (db (endSession env sessionId w).1) !! sessionId = Some s'
    ∧ hours_deducted s' = Some hours
    ∧ hours = Math.ceil (js_div (Math.ceil (js_div elapsed 60000)) 60)
    ∧ hours = Math.ceil ((elapsed # 1000) / inject_Z 3600)%Q
    ∧ is_ceiling hours elapsed 3600000
    ∧ (0 < elapsed → 1 ≤ hours).
Proof.
  intros Hs Hload Hupd <- Hpos.
  eexists _, _. split; [by apply endSession_session_row|]. simpl.
  pose proof (hoursDeducted_durationMinutes (client_now env) (start_time s)) as Hc.
  do 2 (split; [reflexivity|]).
  split; [|split; [exact Hc|]].
  - eapply (is_ceiling_unique 3600000); [lia | apply Hc |].
    change ((_ # 1000) / inject_Z 3600)%Q
      with (js_div (client_now env - start_time s) 3600000) at 1.
    apply (ceil_is_ceiling _ 3600000). lia.
  - intros. unfold is_ceiling in Hc. lia.
Qed.

Lemma two_step_rounding_is_one_ceiling_witness :
  ∃ s' hours,
    user_sessions (db (endSession (Club.env 1000 false) "s-1" (Club.one_session 5)).1)
      !! "s-1" = Some s'
    ∧ hours_deducted s' = Some hours
    ∧ hours = Math.ceil (js_div (Math.ceil (js_div 1000 60000)) 60)
    ∧ hours = Math.ceil ((1000 # 1000) / inject_Z 3600)%Q
    ∧ is_ceiling hours 1000 3600000
    ∧ (0 < 1000 → 1 ≤ hours).
Proof.
  apply (two_step_rounding_is_one_ceiling (Club.env 1000 false) "s-1"
           (Club.one_session 5) (Club.session 0 active) 1000);
    [vm_compute; reflexivity | reflexivity | reflexivity | reflexivity | lia].
Defined.

(** ** Ending a session: the balance *)

(** C2: when the end operation runs on a session linked to a subscription
    with balance [B] and the store serves its requests, the balance afterwards
    is [max(0, B - hoursDeducted)], where [hoursDeducted] is the value persisted
    on the session; it is not negative. *)
Theorem end_clamps_balance env sessionId w s subscriptionId sub B :
  user_sessions (db w) !! sessionId = Some s →
  user_subscription_id s = Some subscriptionId →
  user_subscriptions (db w) !! subscriptionId = Some sub →
  hours_remaining sub = B →
  fault env load_session = None →
  fault env update_session = None →
  fault env update_subscription = None →
  ∃ s' hours,
    user_sessions (db (endSession env sessionId w).1) !! sessionId = Some s'
    ∧ hours_deducted s' = Some hours
    ∧ balance_of (endSession env sessionId w).1 subscriptionId = Some (Z.max 0 (B - hours))
    ∧ 0 ≤ Z.max 0 (B - hours).
Proof.
  intros Hs Hlink Hsub <- Hload Hupd Hserved.
  eexists _, _. split; [by apply endSession_session_row|].
  split; [reflexivity|]. split; [|lia].
  unfold balance_of.
  by rewrite (proj1 (endSession_linked env sessionId w s Hs Hload Hupd
                       subscriptionId sub Hlink Hsub Hserved)).
Qed.

Lemma end_clamps_balance_witness :
  ∃ s' hours,
    user_sessions (db (endSession (Club.env (125 * Club.minute) false) "s-1"
                         (Club.one_session 1)).1) !! "s-1" = Some s'
    ∧ hours_deducted s' = Some hours
    ∧ balance_of (endSession (Club.env (125 * Club.minute) false) "s-1"
                    (Club.one_session 1)).1 "sub-1" = Some (Z.max 0 (1 - hours))
    ∧ 0 ≤ Z.max 0 (1 - hours).
Proof.
  apply (end_clamps_balance (Club.env (125 * Club.minute) false) "s-1"
           (Club.one_session 1) (Club.session 0 active) "sub-1"
           (Club.subscription 1 sub_active) 1);
    solve [reflexivity | vm_compute; reflexivity].
Defined.

(** C5: a session that ran 61 minutes, on a subscription with 5 hours left, is
    persisted with [duration_minutes = 61] and [hours_deducted = 2] and leaves
    3 hours; one that ran 125 minutes, on a subscription with 1 hour left, is
    persisted with [hours_deducted = 3] and leaves 0 hours. *)
Theorem billing_examples env sessionId w s subscriptionId sub :
  user_sessions (db w) !! sessionId = Some s →
  user_subscription_id s = Some subscriptionId →
  user_subscriptions (db w) !! subscriptionId = Some sub →
  fault env load_session = None →
  fault env update_session = None →
  fault env update_subscription = None →
  let w' := (endSession env sessionId w).1 in
  (client_now env - start_time s = 61 * 60000 → hours_remaining sub = 5 →
     duration_minutes <$> user_sessions (db w') !! sessionId = Some (Some 61)
     ∧ hours_deducted <$> user_sessions (db w') !! sessionId = Some (Some 2)
     ∧ balance_of w' subscriptionId = Some 3)
  ∧ (client_now env - start_time s = 125 * 60000 → hours_remaining sub = 1 →
     hours_deducted <$> user_sessions (db w') !! sessionId = Some (Some 3)
     ∧ balance_of w' subscriptionId = Some 0).
Proof.
  intros Hs Hlink Hsub Hload Hupd Hserved w'. subst w'. unfold balance_of.
  rewrite (endSession_session_row env sessionId w s Hs Hload Hupd).
  rewrite (proj1 (endSession_linked env sessionId w s Hs Hload Hupd
                    subscriptionId sub Hlink Hsub Hserved)).
  unfold durationMinutes. simpl.
  split; intros -> ->; repeat split; reflexivity.
Qed.

Lemma billing_examples_witness :
  (let w' := (endSession (Club.env (61 * Club.minute) false) "s-1"
                (Club.one_session 5)).1 in
   duration_minutes <$> user_sessions (db w') !! "s-1" = Some (Some 61)
   ∧ hours_deducted <$> user_sessions (db w') !! "s-1" = Some (Some 2)
   ∧ balance_of w' "sub-1" = Some 3)
  ∧ (let w' := (endSession (Club.env (125 * Club.minute) false) "s-1"
                  (Club.one_session 1)).1 in
     hours_deducted <$> user_sessions (db w') !! "s-1" = Some (Some 3)
     ∧ balance_of w' "sub-1" = Some 0).
Proof.
  split.
  - apply (billing_examples (Club.env (61 * Club.minute) false) "s-1"
             (Club.one_session 5) (Club.session 0 active) "sub-1"
             (Club.subscription 5 sub_active));
      solve [reflexivity | vm_compute; reflexivity].
  - apply (billing_examples (Club.env (125 * Club.minute) false) "s-1"
             (Club.one_session 1) (Club.session 0 active) "sub-1"
             (Club.subscription 1 sub_active));
      solve [reflexivity | vm_compute; reflexivity].
Defined.

(** C10 as stated fails.  With the client clock an hour behind the
    [start_time] the database stamped, the hours deducted are -1 and a balance
    of 5 becomes 6; with a balance of -2, the clamp lifts it to 0. *)
Lemma end_can_increase_balance :
  (let w := Club.one_session 5 in
   let w' := (endSession (Club.env (- 3600000) false) "s-1" w).1 in
   ¬ (∀ before after,
        balance_of w "sub-1" = Some before → balance_of w' "sub-1" = Some after →
        after ≤ before))
  ∧ (let w := Club.one_session (-2) in
     let w' := (endSession (Club.env 1000 false) "s-1" w).1 in
     ¬ (∀ before after,
          balance_of w "sub-1" = Some before → balance_of w' "sub-1" = Some after →
          after ≤ before)).
Proof.
  split; intros w w' Hle.
  - specialize (Hle 5 6 eq_refl). vm_compute in Hle. by apply Hle.
  - specialize (Hle (-2) 0 eq_refl). vm_compute in Hle. by apply Hle.
Qed.

(** C10, amended: when the end time is not before the session's [start_time]
    and the linked subscription's balance is not negative, the end operation
    does not increase that balance, whichever of its requests are served. *)
Theorem end_never_increases_balance env sessionId w s subscriptionId sub :
  user_sessions (db w) !! sessionId = Some s →
  user_subscription_id s = Some subscriptionId →
  user_subscriptions (db w) !! subscriptionId = Some sub →
  start_time s ≤ client_now env →
  0 ≤ hours_remaining sub →
  ∃ balance,
    balance_of (endSession env sessionId w).1 subscriptionId = Some balance
    ∧ balance ≤ hours_remaining sub
    ∧ 0 ≤ hoursDeducted (durationMinutes (client_now env) (start_time s)).
Proof.
  intros Hs Hlink Hsub Htime Hbal.
  pose proof (hoursDeducted_durationMinutes (client_now env) (start_time s)) as Hc.
  assert (0 ≤ hoursDeducted (durationMinutes (client_now env) (start_time s))) as Hh
    by (unfold is_ceiling in Hc; lia).
  unfold balance_of. exec_end. rewrite Hs.
  destruct (fault env load_session); simpl; [rewrite Hsub; eauto with lia|].
  destruct (fault env update_session); simpl; [rewrite Hsub; eauto with lia|].
  rewrite Hlink. simpl. rewrite Hsub. simpl.
  destruct (fault env update_subscription); simpl; [rewrite Hsub; eauto with lia|].
  exists (Z.max 0 (hours_remaining sub
                   - hoursDeducted (durationMinutes (client_now env) (start_time s)))).
  split; [|split; [lia|done]].
  destruct (users (db w) !! user_id s); simpl;
    [destruct (fetch_rejects env); simpl|]; by rewrite lookup_alter_eq, Hsub.
Qed.

Lemma end_never_increases_balance_witness :
  ∃ balance,
    balance_of (endSession (Club.env (61 * Club.minute) true) "s-1"
                  (Club.one_session 5)).1 "sub-1" = Some balance
    ∧ balance ≤ 5
    ∧ 0 ≤ hoursDeducted (durationMinutes (61 * Club.minute) 0).
Proof.
  apply (end_never_increases_balance (Club.env (61 * Club.minute) true) "s-1"
           (Club.one_session 5) (Club.session 0 active) "sub-1"
           (Club.subscription 5 sub_active));
    solve [reflexivity | vm_compute; reflexivity | vm_compute; discriminate].
Defined.

(** ** The webhook *)

(** C6: when the store has served the end operation and [fetch] then rejects,
    the session row and the balance are the ones persisted before the call, the
    store is the one a delivered webhook leaves, and the staff is shown the
    success toast and no other; the failure is a line in the console. *)
Theorem webhook_failure_is_swallowed env sessionId w s :
  user_sessions (db w) !! sessionId = Some s →
  fault env load_session = None →
  fault env update_session = None →
  (∀ subscriptionId, user_subscription_id s = Some subscriptionId →
     is_Some (user_subscriptions (db w) !! subscriptionId)
     ∧ fault env update_subscription = None) →
  fetch_rejects env = true →
  let minutes := durationMinutes (client_now env) (start_time s) in
  let hours := hoursDeducted minutes in
  let failed := endSession env sessionId w in
  let delivered := endSession (with_fetch_rejects false env) sessionId w in
  failed.2 = Normal ()
  ∧ toasts failed.1 = (toasts w ++ [toast_success (session_ended_message minutes hours)])%list
  ∧ db failed.1 = db delivered.1
  ∧ user_sessions (db failed.1) !! sessionId
    = Some (end_row env (client_now env) minutes hours s)
  ∧ (∀ subscriptionId sub,
       user_subscription_id s = Some subscriptionId →
       user_subscriptions (db w) !! subscriptionId = Some sub →
       balance_of failed.1 subscriptionId = Some (Math.max 0 (hours_remaining sub - hours))).
Proof.
  intros Hs Hload Hupd Hsub Hrej minutes hours failed delivered.
  subst failed delivered minutes hours.
  destruct (endSession_fetch_irrelevant false env sessionId w) as (Hdb & _ & Hres).
  split; [|split; [|split; [by rewrite Hdb|split]]].
  - rewrite <- Hres. clear Hdb Hres. exec_end.
    rewrite Hs, Hload. simpl. rewrite Hupd. simpl.
    destruct (user_subscription_id s) as [subscriptionId|] eqn:Hlink; simpl.
    + destruct (Hsub _ eq_refl) as [[sub Hfound] Hserved].
      rewrite Hfound. simpl. rewrite Hserved. simpl.
      by destruct (users (db w) !! user_id s).
    + by destruct (users (db w) !! user_id s).
  - destruct (user_subscription_id s) as [subscriptionId|] eqn:Hlink.
    + destruct (Hsub _ eq_refl) as [[sub Hfound] Hserved].
      by apply (endSession_linked env sessionId w s Hs Hload Hupd subscriptionId sub).
    + by apply endSession_unlinked.
  - by apply endSession_session_row.
  - intros subscriptionId sub Hlink Hfound.
    destruct (Hsub _ Hlink) as [_ Hserved]. unfold balance_of.
    by rewrite (proj1 (endSession_linked env sessionId w s Hs Hload Hupd
                         subscriptionId sub Hlink Hfound Hserved)).
Qed.

Lemma webhook_failure_is_swallowed_witness :
  let env := Club.env (61 * Club.minute) true in
  let failed := endSession env "s-1" (Club.one_session 5) in
  let delivered := endSession (with_fetch_rejects false env) "s-1" (Club.one_session 5) in
  failed.2 = Normal ()
  ∧ toasts failed.1
    = [toast_success (session_ended_message
                        (durationMinutes (61 * Club.minute) 0)
                        (hoursDeducted (durationMinutes (61 * Club.minute) 0)))]
  ∧ console failed.1 = [("Webhook failed:", FetchError)]
  ∧ db failed.1 = db delivered.1.
Proof.
  intros env failed delivered.
  destruct (webhook_failure_is_swallowed env "s-1" (Club.one_session 5)
              (Club.session 0 active)) as (Hres & Htoasts & Hdb & _).
  - vm_compute; reflexivity.
  - reflexivity.
  - reflexivity.
  - intros subscriptionId [= <-]. split; [by eexists|reflexivity].
  - reflexivity.
  - split; [exact Hres|]. split; [exact Htoasts|]. split; [reflexivity|exact Hdb].
Defined.

(** ** Starting a session *)

(** C3 fails on a user who has two active sessions: [.single()] then answers
    with no data and the error PGRST116, which the check takes for no row, and
    a third session is inserted. *)
Theorem start_with_two_active_sessions :
  let w := Club.two_sessions in
  let env := Club.env 5000 false in
  let w' := (startSession env "ann" w).1 in
  (user_id <$> user_sessions (db w) !! "s-1" = Some "ann" ∧ status_of w "s-1" = Some active)
  ∧ (user_id <$> user_sessions (db w) !! "s-2" = Some "ann" ∧ status_of w "s-2" = Some active)
  ∧ user_sessions (db w) !! "s-new" = None
  ∧ toasts w' = [SessionStarted]
  ∧ user_sessions (db w') !! "s-new" = Some (new_session env "ann" "sub-1" "staff-1").
Proof. vm_compute. repeat split; reflexivity. Qed.

(** C4: for a user with no active session whose one subscription that is
    [active] and in date has [hours_remaining <= 0], the start operation shows
    the InsufficientBalance toast and leaves the store as it was. *)
Theorem start_fails_on_empty_balance env userId w subscriptionId sub :
  fault env check_active = None →
  fault env get_subscription = None →
  (∀ sessionId s, user_sessions (db w) !! sessionId = Some s →
     user_id s = userId → status s ≠ active) →
  user_subscriptions (db w) !! subscriptionId = Some sub →
  sub_user_id sub = userId →
  sub_status sub = sub_active →
  iso_date (client_now env) ≤ end_date sub →
  (∀ subscriptionId' sub', user_subscriptions (db w) !! subscriptionId' = Some sub' →
     sub_user_id sub' = userId → sub_status sub' = sub_active →
     iso_date (client_now env) ≤ end_date sub' → subscriptionId' = subscriptionId) →
  hours_remaining sub ≤ 0 →
  toasts (startSession env userId w).1 = (toasts w ++ [InsufficientBalance])%list
  ∧ user_sessions (db (startSession env userId w).1) = user_sessions (db w)
  ∧ db (startSession env userId w).1 = db w.
Proof.
  intros Hcheck Hget Hnone Hsub Howner Hactive Hdate Huniq Hle.
  destruct (startSession_insufficient env userId w Hcheck Hnone Hget
              subscriptionId sub Hsub Howner Hactive Hdate Huniq Hle) as [Hdb Htoasts].
  by rewrite Hdb.
Qed.

Lemma start_fails_on_empty_balance_witness :
  let w := Club.no_session 0 sub_active in
  let env := Club.env (3 * Club.day) false in
  toasts (startSession env "ann" w).1 = [InsufficientBalance]
  ∧ user_sessions (db (startSession env "ann" w).1) = user_sessions (db w)
  ∧ db (startSession env "ann" w).1 = db w.
Proof.
  intros w env.
  apply (start_fails_on_empty_balance env "ann" w "sub-1" (Club.subscription 0 sub_active)).
  - reflexivity.
  - reflexivity.
  - intros sessionId s Hs. destruct (lookup_empty_Some (M:=gmap string) _ _ Hs).
  - reflexivity.
  - reflexivity.
  - reflexivity.
  - vm_compute. discriminate.
  - intros k v Hk _ _ _.
    by destruct (proj1 (lookup_singleton_Some (M:=gmap string) _ _ _ _) Hk) as [<- _].
  - simpl. lia.
Defined.

(** C7: for a user with no active session and no subscription that is
    [active] with [end_date >= today], the start operation shows the
    NoSubscription toast and leaves the store as it was. *)
Theorem start_fails_without_subscription env userId w :
  fault env check_active = None →
  fault env get_subscription = None →
  (∀ sessionId s, user_sessions (db w) !! sessionId = Some s →
     user_id s = userId → status s ≠ active) →
  (∀ subscriptionId sub, user_subscriptions (db w) !! subscriptionId = Some sub →
     sub_user_id sub = userId → sub_status sub = sub_active →
     end_date sub < iso_date (client_now env)) →
  toasts (startSession env userId w).1 = (toasts w ++ [NoSubscription])%list
  ∧ user_sessions (db (startSession env userId w).1) = user_sessions (db w)
  ∧ db (startSession env userId w).1 = db w.
Proof.
  intros Hcheck Hget Hnone Hnosub.
  destruct (startSession_no_subscription env userId w Hcheck Hnone Hget Hnosub)
    as [Hdb Htoasts].
  by rewrite Hdb.
Qed.

Lemma start_fails_without_subscription_witness :
  let w := Club.no_session 5 sub_active in
  let env := Club.env (20001 * Club.day) false in
  toasts (startSession env "ann" w).1 = [NoSubscription]
  ∧ user_sessions (db (startSession env "ann" w).1) = user_sessions (db w)
  ∧ db (startSession env "ann" w).1 = db w.
Proof.
  intros w env.
  apply (start_fails_without_subscription env "ann" w).
  - reflexivity.
  - reflexivity.
  - intros sessionId s Hs. destruct (lookup_empty_Some (M:=gmap string) _ _ Hs).
  - intros k v Hk _ _.
    destruct (proj1 (lookup_singleton_Some (M:=gmap string) _ _ _ _) Hk) as [_ <-].
    vm_compute. reflexivity.
Defined.

(** ** The life of a session *)

(** [startSession] leaves the table alone or inserts one row under a new key. *)
Lemma startSession_sessions env userId w :
  user_sessions (db (startSession env userId w).1) = user_sessions (db w)
  ∨ (user_sessions (db w) !! gen_random_uuid env = None
     ∧ ∃ subscriptionId staff,
         user_sessions (db (startSession env userId w).1)
         = <[gen_random_uuid env := new_session env userId subscriptionId staff]>
             (user_sessions (db w))).
Proof.
  exec_start.
  repeat (case_match; simplify_eq/=); eauto.
Qed.

(** [endSession] leaves the table alone or completes the row of its session. *)
Lemma endSession_sessions env sessionId w :
  user_sessions (db (endSession env sessionId w).1) = user_sessions (db w)
  ∨ ∃ endTime minutes hours,
      user_sessions (db (endSession env sessionId w).1)
      = alter (end_row env endTime minutes hours) sessionId (user_sessions (db w)).
Proof.
  exec_end.
  repeat (case_match; simplify_eq/=); eauto.
Qed.

Lemma perform_transition ea w sessionId :
  transition sessionId ea.2 (status_of w sessionId) (status_of (perform ea w) sessionId).
Proof.
  destruct ea as [env [userId|ended_id]]; unfold perform, status_of; simpl.
  - destruct (startSession_sessions env userId w) as [->|(Hfresh & sub & staff & ->)];
      [constructor|].
    destruct (decide (sessionId = gen_random_uuid env)) as [->|Hne].
    + rewrite lookup_insert_eq, Hfresh. constructor.
    + rewrite lookup_insert_ne by done. constructor.
  - destruct (endSession_sessions env ended_id w) as [->|(T & m & h & ->)];
      [constructor|].
    destruct (decide (sessionId = ended_id)) as [->|Hne].
    + rewrite lookup_alter_eq.
      destruct (user_sessions (db w) !! ended_id) as [s|]; simpl; [|constructor].
      destruct (status s); constructor.
    + rewrite lookup_alter_ne by done. constructor.
Qed.

(** A start that shows the success toast has inserted its row under an id
    that was free. *)
Lemma startSession_success_creates env userId w :
  toasts (startSession env userId w).1 = (toasts w ++ [SessionStarted])%list →
  user_sessions (db w) !! gen_random_uuid env = None
  ∧ ∃ subscriptionId staff,
      user_sessions (db (startSession env userId w).1)
      = <[gen_random_uuid env := new_session env userId subscriptionId (auth_id staff)]>
          (user_sessions (db w)).
Proof.
  exec_start.
  repeat (case_match; simplify_eq/=); intros Hok;
    try (apply app_inj_tail in Hok as [_ Hok]; discriminate Hok); eauto.
Qed.

(** C8: along every sequence of start and end operations, each operation
    leaves the status of a session as it is, or creates the session as
    [active] (a start), or takes it from [active] to [completed] (the end of
    that session); nothing leads out of [completed], and no row disappears.
    A start that shows its success toast has created a session, under an id
    not in use before, with status [active]; an end of an existing session
    whose load and update are served leaves it [completed]. *)
Theorem only_active_to_completed actions ea w sessionId :
  let before := run actions w in
  let after := run (actions ++ [ea]) w in
  transition sessionId ea.2 (status_of before sessionId) (status_of after sessionId)
  ∧ (∀ userId,
       ea.2 = Start userId →
       toasts after = (toasts before ++ [SessionStarted])%list →
       status_of before (gen_random_uuid ea.1) = None
       ∧ status_of after (gen_random_uuid ea.1) = Some active
       ∧ user_id <$> user_sessions (db after) !! gen_random_uuid ea.1 = Some userId)
  ∧ (ea.2 = End sessionId →
     is_Some (status_of before sessionId) →
     fault ea.1 load_session = None →
     fault ea.1 update_session = None →
     status_of after sessionId = Some completed).
Proof.
  intros before after. subst before after.
  unfold run. rewrite foldl_snoc. fold (run actions w).
  split; [apply perform_transition|]. destruct ea as [env a]; simpl. split.
  - intros userId -> Hok. unfold perform in *; simpl in *.
    destruct (startSession_success_creates env userId (run actions w) Hok)
      as (Hfresh & subscriptionId & staff & Hins).
    unfold status_of. rewrite Hins, Hfresh, lookup_insert_eq. done.
  - intros -> [st Hst] Hload Hupd. unfold perform; simpl.
    unfold status_of in *.
    destruct (user_sessions (db (run actions w)) !! sessionId) as [s|] eqn:Hs; [|done].
    by rewrite (endSession_session_row env sessionId (run actions w) s Hs Hload Hupd).
Qed.

Lemma only_active_to_completed_witness :
  let w := Club.no_session 5 sub_active in
  let start := (Club.env (3 * Club.day) false, Start "ann") in
  let finish := (Club.env (3 * Club.day + 61 * Club.minute) false, End "s-new") in
  status_of w "s-new" = None
  ∧ status_of (run [start] w) "s-new" = Some active
  ∧ status_of (run [start; finish] w) "s-new" = Some completed.
Proof.
  intros w start finish.
  destruct (only_active_to_completed [] start w "s-new") as (_ & Hcreated & _).
  destruct (Hcreated "ann" eq_refl) as (Hfree & Hactive & _); [vm_compute; reflexivity|].
  destruct (only_active_to_completed [start] finish w "s-new") as (_ & _ & Hended).
  split; [exact Hfree|]. split; [exact Hactive|].
  apply Hended; [reflexivity | eexists; exact Hactive | reflexivity | reflexivity].
Defined.

(** A completed session stays completed to the end of every sequence. *)
Lemma completed_is_final actions w sessionId :
  status_of w sessionId = Some completed →
  status_of (run actions w) sessionId = Some completed.
Proof.
  revert w. induction actions as [|ea actions IH]; intros w Hw; [done|].
  simpl. apply IH.
  pose proof (perform_transition ea w sessionId) as Ht.
  rewrite Hw in Ht. by inversion Ht.
Qed.

(** ** Invariants along sequences of actions *)

Lemma active_sessions_at_most_one w userId x y rest :
  one_active_per_user w → active_sessions_of (db w) userId ≠ x :: y :: rest.
Proof.
  intros Hinv Hl. unfold active_sessions_of in Hl.
  match type of Hl with map_to_list ?m = _ =>
    pose proof (NoDup_fst_map_to_list m) as Hnd;
    assert (x ∈ map_to_list m) as Hx by (rewrite Hl; set_solver);
    assert (y ∈ map_to_list m) as Hy by (rewrite Hl; set_solver)
  end.
  rewrite Hl in Hnd. destruct x as [kx sx], y as [ky sy].
  apply elem_of_map_to_list, map_lookup_filter_Some in Hx as (Hx & Hux & Hax).
  apply elem_of_map_to_list, map_lookup_filter_Some in Hy as (Hy & Huy & Hay).
  simpl in *. assert (kx = ky) as -> by (eapply Hinv; eauto; congruence).
  apply NoDup_cons in Hnd as [Hnotin _]. set_solver.
Qed.

Lemma startSession_keeps_one_active env userId w :
  check_answers env → one_active_per_user w →
  one_active_per_user (startSession env userId w).1.
Proof.
  intros Hcheck Hinv. unfold one_active_per_user.
  exec_start. destruct (fault env check_active) as [e|] eqn:Hfault; simpl.
  { rewrite decide_True by by apply Hcheck. simpl. exact Hinv. }
  destruct (map_to_list _) as [|x [|y rest]] eqn:Hactive; simpl.
  - (* no active session of the user *)
    apply map_to_list_empty_iff in Hactive.
    repeat (case_match; simplify_eq/=); try exact Hinv.
    all: intros id1 id2 s1 s2 Hr1 Hr2 Hu Ha1 Ha2.
    all: apply lookup_insert_Some in Hr1 as [[<- <-]|[Hne1 Hr1]];
      apply lookup_insert_Some in Hr2 as [[<- <-]|[Hne2 Hr2]]; simpl in *;
      [ done
      | by destruct (map_filter_empty_not_lookup _ _ id2 s2 Hactive)
      | by destruct (map_filter_empty_not_lookup _ _ id1 s1 Hactive)
      | by eapply Hinv ].
  - exact Hinv.
  - by destruct (active_sessions_at_most_one w userId x y rest Hinv).
Qed.

Lemma endSession_keeps_one_active env sessionId w :
  one_active_per_user w → one_active_per_user (endSession env sessionId w).1.
Proof.
  intros Hinv. unfold one_active_per_user.
  destruct (endSession_sessions env sessionId w) as [->|(T & m & h & ->)]; [exact Hinv|].
  intros id1 id2 s1 s2 Hr1 Hr2 Hu Ha1 Ha2.
  rewrite lookup_alter in Hr1, Hr2.
  destruct (decide (sessionId = id1)) as [->|?];
    [by destruct (user_sessions (db w) !! id1); simplify_eq/=|].
  destruct (decide (sessionId = id2)) as [->|?];
    [by destruct (user_sessions (db w) !! id2); simplify_eq/=|].
  by eapply Hinv.
Qed.

(** Run one after the other, the two handlers keep a user at one active
    session at most. *)
Lemma run_keeps_one_active actions w :
  Forall (λ ea, check_answers ea.1) actions →
  one_active_per_user w → one_active_per_user (run actions w).
Proof.
  intros Hall. revert w. induction Hall as [|[env a] actions Hcheck _ IH]; intros w Hinv; [done|].
  simpl. apply IH. unfold perform. destruct a; simpl.
  - by apply startSession_keeps_one_active.
  - by apply endSession_keeps_one_active.
Qed.

(** On a store with that invariant the check does reject a second session. *)
Lemma start_rejects_second_session env userId w sessionId s :
  one_active_per_user w →
  fault env check_active = None →
  user_sessions (db w) !! sessionId = Some s → user_id s = userId → status s = active →
  db (startSession env userId w).1 = db w
  ∧ toasts (startSession env userId w).1 = (toasts w ++ [AlreadyActive])%list.
Proof.
  intros Hinv Hserved Hs Hu Ha.
  apply (startSession_one_active env userId w Hserved sessionId s Hs Hu Ha).
  intros id' s' Hs' Hu' Ha'. eapply Hinv; eauto. congruence.
Qed.

Lemma startSession_subscriptions env userId w :
  user_subscriptions (db (startSession env userId w).1) = user_subscriptions (db w).
Proof. exec_start. repeat (case_match; simplify_eq/=); done. Qed.

Lemma endSession_subscriptions env sessionId w :
  user_subscriptions (db (endSession env sessionId w).1) = user_subscriptions (db w)
  ∨ ∃ subscriptionId h,
      user_subscriptions (db (endSession env sessionId w).1)
      = alter (set_hours_remaining (Math.max 0 h)) subscriptionId (user_subscriptions (db w)).
Proof. exec_end. repeat (case_match; simplify_eq/=); eauto. Qed.

(** The clamp keeps every balance at 0 or above, along every sequence. *)
Lemma run_keeps_balances_nonnegative actions w :
  balances_nonnegative w → balances_nonnegative (run actions w).
Proof.
  revert w. induction actions as [|[env a] actions IH]; intros w Hinv; [done|].
  simpl. apply IH. unfold perform, balances_nonnegative. destruct a; simpl.
  - by rewrite startSession_subscriptions.
  - destruct (endSession_subscriptions env sessionId w) as [->|(k & h & ->)]; [done|].
    intros k' sub Hsub. rewrite lookup_alter in Hsub. case_decide; [|by eapply Hinv].
    apply fmap_Some in Hsub as (u & _ & ->). simpl. unfold Math.max. lia.
Qed.

(** ** Failures of the store *)

Lemma startSession_store_error env userId w e :
  fault env check_active = Some e → code e ≠ "PGRST116" →
  db (startSession env userId w).1 = db w
  ∧ toasts (startSession env userId w).1 = (toasts w ++ [StartStoreError])%list.
Proof.
  intros Hfault Hcode. exec_start. rewrite Hfault. simpl.
  by rewrite decide_True by done.
Qed.

(** Nothing ties the two updates of [endSession] together: when the second is
    refused, the session is completed and the balance is the old one. *)
Lemma endSession_partial_failure env sessionId w s subscriptionId sub e :
  user_sessions (db w) !! sessionId = Some s →
  fault env load_session = None →
  fault env update_session = None →
  user_subscription_id s = Some subscriptionId →
  user_subscriptions (db w) !! subscriptionId = Some sub →
  fault env update_subscription = Some e →
  status_of (endSession env sessionId w).1 sessionId = Some completed
  ∧ balance_of (endSession env sessionId w).1 subscriptionId = Some (hours_remaining sub)
  ∧ toasts (endSession env sessionId w).1 = (toasts w ++ [EndStoreError])%list.
Proof.
  intros Hs Hload Hupd Hlink Hsub Hfault. unfold status_of, balance_of.
  rewrite (endSession_session_row env sessionId w s Hs Hload Hupd).
  split; [done|]. exec_end. rewrite Hs, Hload. simpl. rewrite Hupd, Hlink. simpl.
  rewrite Hsub. simpl. rewrite Hfault. simpl. by rewrite Hsub.
Qed.

(** * Further properties of the component *)

(** ** Durations as shown *)

Lemma floor_js_div a b : 0 < b → Math.floor (js_div a b) = a / b.
Proof.
  destruct b as [|p|p]; try lia. intros _.
  rewrite js_div_pos. reflexivity.
Qed.

(** Hours and minutes of a number of minutes that is not negative. *)
Lemma hours_and_minutes total :
  0 ≤ total →
  0 ≤ Math.floor (js_div total 60)
  ∧ 0 ≤ js_rem total 60 < 60
  ∧ 60 * Math.floor (js_div total 60) + js_rem total 60 = total.
Proof.
  intros Hpos. rewrite floor_js_div by lia. unfold js_rem.
  rewrite Z.rem_mod_nonneg by lia.
  pose proof (Z.div_mod total 60 ltac:(lia)).
  pose proof (Z.mod_pos_bound total 60 ltac:(lia)).
  pose proof (Z.div_pos total 60 Hpos ltac:(lia)). lia.
Qed.

(** The card of a session that started at or before [now] shows [Hh Mm] with
    [M] below 60, where [60 H + M] is the number of whole minutes elapsed. *)
Theorem getSessionDuration_whole_minutes now startTime :
  startTime ≤ now →
  ∃ hours minutes,
    getSessionDuration now startTime = pretty hours +:+ "h " +:+ pretty minutes +:+ "m"
    ∧ 0 ≤ hours ∧ 0 ≤ minutes < 60
    ∧ 60000 * (60 * hours + minutes) ≤ now - startTime < 60000 * (60 * hours + minutes + 1).
Proof.
  intros Hle. unfold getSessionDuration.
  set (total := Math.floor (js_div (now - startTime) (1000 * 60))).
  assert (total = (now - startTime) / 60000) as Htotal
    by (unfold total; rewrite floor_js_div by lia; reflexivity).
  assert (0 ≤ total) as Hpos by (rewrite Htotal; apply Z.div_pos; lia).
  destruct (hours_and_minutes total Hpos) as (Hh & Hm & Hsum).
  eexists _, _. split; [reflexivity|]. split; [exact Hh|]. split; [exact Hm|].
  rewrite Hsum, Htotal.
  pose proof (Z.div_mod (now - startTime) 60000 ltac:(lia)).
  pose proof (Z.mod_pos_bound (now - startTime) 60000 ltac:(lia)). lia.
Qed.

Lemma getSessionDuration_whole_minutes_witness :
  ∃ hours minutes,
    getSessionDuration 3719000 0 = pretty hours +:+ "h " +:+ pretty minutes +:+ "m"
    ∧ 0 ≤ hours ∧ 0 ≤ minutes < 60
    ∧ 60000 * (60 * hours + minutes) ≤ 3719000 - 0 < 60000 * (60 * hours + minutes + 1).
Proof. apply (getSessionDuration_whole_minutes 3719000 0). lia. Defined.

(** Ended at the instant the card is read, a session is billed the minutes
    shown or one more, and the hours shown or one more. *)
Theorem shown_duration_is_below_billed now startTime :
  startTime ≤ now →
  ∃ hours minutes,
    getSessionDuration now startTime = pretty hours +:+ "h " +:+ pretty minutes +:+ "m"
    ∧ 60 * hours + minutes ≤ durationMinutes now startTime ≤ 60 * hours + minutes + 1
    ∧ hours ≤ hoursDeducted (durationMinutes now startTime) ≤ hours + 1.
Proof.
  intros Hle. unfold getSessionDuration.
  set (total := Math.floor (js_div (now - startTime) (1000 * 60))).
  assert (total = (now - startTime) / 60000) as Htotal
    by (unfold total; rewrite floor_js_div by lia; reflexivity).
  assert (0 ≤ total) as Hpos by (rewrite Htotal; apply Z.div_pos; lia).
  destruct (hours_and_minutes total Hpos) as (Hh & Hm & Hsum).
  eexists _, _. split; [reflexivity|].
  pose proof (Z.div_mod (now - startTime) 60000 ltac:(lia)) as Hdiv.
  pose proof (Z.mod_pos_bound (now - startTime) 60000 ltac:(lia)) as Hmod.
  rewrite <- Htotal in Hdiv. clear Htotal.
  pose proof (durationMinutes_is_ceiling now startTime) as Hc.
  pose proof (hoursDeducted_durationMinutes now startTime) as Hd.
  unfold is_ceiling in *. lia.
Qed.

Lemma shown_duration_is_below_billed_witness :
  ∃ hours minutes,
    getSessionDuration 3719000 0 = pretty hours +:+ "h " +:+ pretty minutes +:+ "m"
    ∧ 60 * hours + minutes ≤ durationMinutes 3719000 0 ≤ 60 * hours + minutes + 1
    ∧ hours ≤ hoursDeducted (durationMinutes 3719000 0) ≤ hours + 1.
Proof. apply (shown_duration_is_below_billed 3719000 0). lia. Defined.

(** ** Starting a session, whatever the store answers *)

Ltac exec_keep_request :=
  unfold try_finally, try_catch, select, write, toast, console_error,
    throw_if, throw_unless_PGRST116, setStartingSession, setEndingSession,
    fetch, webhook_body, set_db;
  unfold throw, mbind, M_bind, mret, M_ret;
  simpl.

Lemma request_single_Some {A} fault (rows : list A) x e :
  request fault (single rows) = (Some x, e) → fault = None ∧ rows = [x].
Proof.
  destruct fault; simpl; [done|].
  destruct rows as [|y [|z rows]]; simpl; intros; by simplify_eq.
Qed.

(** The steps of [startSession] itself, before the refresh it launches: they
    never throw, re-enable the Start button, show one toast and send nothing
    to the webhook. *)
Lemma startSession_own_outcome env userId w :
  (startSession env userId w).2 = Normal ()
  ∧ startingSession (startSession env userId w).1 = None
  ∧ endingSession (startSession env userId w).1 = endingSession w
  ∧ webhook_requests (startSession env userId w).1 = webhook_requests w
  ∧ ∃ t, toasts (startSession env userId w).1 = (toasts w ++ [t])%list
         ∧ t ∈ [AlreadyActive; NoSubscription; InsufficientBalance; StartStoreError;
                SessionStarted].
Proof.
  exec_start.
  repeat (case_match; simplify_eq/=);
    (do 4 (split; [reflexivity|])); eexists; (split; [reflexivity|]); set_solver.
Qed.

(** [startSession] changes the store in one way only: with the success toast,
    it inserts one active row under a new id, for that user, started by the
    signed-in staff member at the time of the database, on a subscription of
    that user that is active, in date and has hours left.  With any other
    toast the store is as it was. *)
Theorem startSession_inserts_only_on_valid_subscription env userId w :
  (db (startSession env userId w).1 = db w
   ∧ ∃ t, toasts (startSession env userId w).1 = (toasts w ++ [t])%list ∧ t ≠ SessionStarted)
  ∨ (∃ subscriptionId sub staff,
       user env = Some staff
       ∧ user_subscriptions (db w) !! subscriptionId = Some sub
       ∧ sub_user_id sub = userId
       ∧ sub_status sub = sub_active
       ∧ iso_date (client_now env) ≤ end_date sub
       ∧ 0 < hours_remaining sub
       ∧ user_sessions (db w) !! gen_random_uuid env = None
       ∧ db (startSession env userId w).1
         = set_user_sessions (db w)
             (<[gen_random_uuid env := new_session env userId subscriptionId (auth_id staff)]>
                (user_sessions (db w)))
       ∧ toasts (startSession env userId w).1 = (toasts w ++ [SessionStarted])%list).
Proof.
  unfold startSession, insert_user_session. exec_keep_request.
  repeat (case_match; simplify_eq/=);
    try (left; split; [reflexivity|]; eexists; split; [reflexivity|discriminate]).
  all: right.
  all: match goal with
       | H : request _ (single (valid_subscriptions_of _ _ _)) = (Some (?k, ?v), _) |- _ =>
           apply request_single_Some in H as [_ Hrows];
           assert ((k, v) ∈ valid_subscriptions_of (db w) userId (iso_date (client_now env)))
             as Hin by (rewrite Hrows; set_solver)
       end.
  all: apply elem_of_map_to_list, map_lookup_filter_Some in Hin
         as (Hsub & Howner & Hactive & Hdate).
  all: simpl in *; eexists _, _, _; repeat split; eauto; lia.
Qed.


(** After a start that succeeded for a user without active session, the next
    start for that user is refused with the AlreadyActive toast and inserts
    nothing. *)
Theorem second_start_is_rejected env env' userId w subscriptionId sub staff :
  fault env check_active = None →
  fault env get_subscription = None →
  fault env insert_session = None →
  (∀ sessionId s, user_sessions (db w) !! sessionId = Some s →
     user_id s = userId → status s ≠ active) →
  user_subscriptions (db w) !! subscriptionId = Some sub →
  sub_user_id sub = userId →
  sub_status sub = sub_active →
  iso_date (client_now env) ≤ end_date sub →
  (∀ subscriptionId' sub', user_subscriptions (db w) !! subscriptionId' = Some sub' →
     sub_user_id sub' = userId → sub_status sub' = sub_active →
     iso_date (client_now env) ≤ end_date sub' → subscriptionId' = subscriptionId) →
  0 < hours_remaining sub →
  user env = Some staff →
  user_sessions (db w) !! gen_random_uuid env = None →
  fault env' check_active = None →
  let w1 := (startSession env userId w).1 in
  let w2 := (startSession env' userId w1).1 in
  status_of w1 (gen_random_uuid env) = Some active
  ∧ db w2 = db w1
  ∧ toasts w2 = (toasts w ++ [SessionStarted; AlreadyActive])%list.
Proof.
  intros Hcheck Hget Hins Hnone Hsub Howner Hactive Hdate Huniq Hpos Hstaff Hfresh Hcheck' w1 w2.
  destruct (startSession_started env userId w Hcheck Hnone Hget subscriptionId sub
              Hsub Howner Hactive Hdate Huniq staff Hpos Hins Hstaff Hfresh)
    as [Hsessions Htoasts].
  fold w1 in Hsessions, Htoasts.
  assert (user_sessions (db w1) !! gen_random_uuid env
          = Some (new_session env userId subscriptionId (auth_id staff))) as Hnew
    by (rewrite Hsessions; apply lookup_insert_eq).
  split; [unfold status_of; by rewrite Hnew|].
  destruct (startSession_one_active env' userId w1 Hcheck' (gen_random_uuid env)
              (new_session env userId subscriptionId (auth_id staff)) Hnew eq_refl eq_refl)
    as [Hdb Htoasts2].
  - intros id s Hs Hu Ha. rewrite Hsessions in Hs.
    apply lookup_insert_Some in Hs as [[<- _]|[_ Hs]]; [done|].
    by destruct (Hnone id s Hs Hu).
  - split; [exact Hdb|]. fold w2 in Htoasts2. rewrite Htoasts2, Htoasts.
    by rewrite <- app_assoc.
Qed.

Lemma second_start_is_rejected_witness :
  let w := Club.no_session 5 sub_active in
  let env := Club.env (3 * Club.day) false in
  let w1 := (startSession env "ann" w).1 in
  let w2 := (startSession env "ann" w1).1 in
  status_of w1 "s-new" = Some active
  ∧ db w2 = db w1
  ∧ toasts w2 = [SessionStarted; AlreadyActive].
Proof.
  intros w env.
  apply (second_start_is_rejected env env "ann" w "sub-1" (Club.subscription 5 sub_active)
           Club.bob).
  - reflexivity.
  - reflexivity.
  - reflexivity.
  - intros sessionId s Hs. destruct (lookup_empty_Some (M:=gmap string) _ _ Hs).
  - reflexivity.
  - reflexivity.
  - reflexivity.
  - vm_compute. discriminate.
  - intros k v Hk _ _ _.
    by destruct (proj1 (lookup_singleton_Some (M:=gmap string) _ _ _ _) Hk) as [<- _].
  - simpl. lia.
  - reflexivity.
  - reflexivity.
  - reflexivity.
Defined.

(** ** Ending a session, whatever the store answers *)

(** The steps of [endSession] itself, before the refresh it launches: they
    never throw, re-enable the End button and show one toast: the failure
    toast, and then nothing was sent to the webhook, or the success toast,
    with at most one request to the webhook, which names the session. *)
Lemma endSession_own_outcome env sessionId w :
  (endSession env sessionId w).2 = Normal ()
  ∧ endingSession (endSession env sessionId w).1 = None
  ∧ startingSession (endSession env sessionId w).1 = startingSession w
  ∧ ((toasts (endSession env sessionId w).1 = (toasts w ++ [EndStoreError])%list
      ∧ webhook_requests (endSession env sessionId w).1 = webhook_requests w)
     ∨ (∃ minutes hours,
          toasts (endSession env sessionId w).1
          = (toasts w ++ [toast_success (session_ended_message minutes hours)])%list
          ∧ (webhook_requests (endSession env sessionId w).1 = webhook_requests w
             ∨ ∃ body,
                 webhook_requests (endSession env sessionId w).1
                 = (webhook_requests w ++ [body])%list
                 ∧ b_sessionId body = sessionId))).
Proof.
  exec_end.
  repeat (case_match; simplify_eq/=);
    (do 3 (split; [reflexivity|])); eauto 10.
Qed.

(** A session id that names no row: the failure toast, and the store is as it
    was. *)
Theorem endSession_unknown_session env sessionId w :
  user_sessions (db w) !! sessionId = None →
  db (endSession env sessionId w).1 = db w
  ∧ toasts (endSession env sessionId w).1 = (toasts w ++ [EndStoreError])%list
  ∧ webhook_requests (endSession env sessionId w).1 = webhook_requests w.
Proof.
  intros Hnone. exec_end. rewrite Hnone.
  by destruct (fault env load_session).
Qed.

Lemma endSession_unknown_session_witness :
  let w := (endSession (Club.env 1000 false) "s-9" (Club.one_session 5)).1 in
  db w = db (Club.one_session 5)
  ∧ toasts w = [EndStoreError]
  ∧ webhook_requests w = [].
Proof.
  apply (endSession_unknown_session (Club.env 1000 false) "s-9" (Club.one_session 5)).
  vm_compute. reflexivity.
Defined.

(** What [endSession] leaves alone: users and plans, every other session, the
    key set of the sessions, and on its own session the user, the
    subscription, the start time and who started it; of the subscriptions,
    every row but the one its session is linked to, and there every column but
    [hours_remaining]. *)
Theorem endSession_frame env sessionId w :
  let w' := (endSession env sessionId w).1 in
  users (db w') = users (db w)
  ∧ subscription_plans (db w') = subscription_plans (db w)
  ∧ (∀ id, id ≠ sessionId → user_sessions (db w') !! id = user_sessions (db w) !! id)
  ∧ (∀ s', user_sessions (db w') !! sessionId = Some s' →
       ∃ s, user_sessions (db w) !! sessionId = Some s
            ∧ user_id s' = user_id s
            ∧ user_subscription_id s' = user_subscription_id s
            ∧ start_time s' = start_time s
            ∧ started_by s' = started_by s)
  ∧ (user_sessions (db w') !! sessionId = None → user_sessions (db w) !! sessionId = None)
  ∧ (∀ subscriptionId,
       user_subscription_id <$> user_sessions (db w) !! sessionId ≠ Some (Some subscriptionId) →
       user_subscriptions (db w') !! subscriptionId
       = user_subscriptions (db w) !! subscriptionId)
  ∧ (∀ subscriptionId,
       set_hours_remaining 0 <$> user_subscriptions (db w') !! subscriptionId
       = set_hours_remaining 0 <$> user_subscriptions (db w) !! subscriptionId).
Proof.
  exec_end.
  destruct (fault env load_session); simpl.
  { destruct (user_sessions (db w) !! sessionId) eqn:Hs; simpl; naive_solver. }
  destruct (user_sessions (db w) !! sessionId) as [s|] eqn:Hs; simpl; [|naive_solver].
  destruct (fault env update_session); simpl; [naive_solver|].
  assert (∀ T m h s',
            alter (end_row env T m h) sessionId (user_sessions (db w)) !! sessionId = Some s' →
            ∃ s0, Some s = Some s0 ∧ user_id s' = user_id s0
                  ∧ user_subscription_id s' = user_subscription_id s0
                  ∧ start_time s' = start_time s0 ∧ started_by s' = started_by s0) as Hrow.
  { intros T m h s'. rewrite lookup_alter_eq, Hs. simpl. intros [= <-]. by exists s. }
  assert (∀ T m h,
            alter (end_row env T m h) sessionId (user_sessions (db w)) !! sessionId = None →
            Some s = None) as Hkey.
  { intros T m h. by rewrite lookup_alter_eq, Hs. }
  assert (∀ T m h id, id ≠ sessionId →
            alter (end_row env T m h) sessionId (user_sessions (db w)) !! id
            = user_sessions (db w) !! id) as Hother.
  { intros T m h id Hne. by rewrite lookup_alter_ne. }
  destruct (user_subscription_id s) as [linked|] eqn:Hlink; simpl.
  - destruct (user_subscriptions (db w) !! linked) as [sub|] eqn:Hsub; simpl.
    + destruct (fault env update_subscription); simpl.
      { repeat split; eauto. }
      assert (∀ h k, k ≠ linked →
                alter (set_hours_remaining h) linked (user_subscriptions (db w)) !! k
                = user_subscriptions (db w) !! k) as Hsubs
        by (intros; by rewrite lookup_alter_ne).
      assert (∀ h k,
                set_hours_remaining 0
                  <$> alter (set_hours_remaining h) linked (user_subscriptions (db w)) !! k
                = set_hours_remaining 0 <$> user_subscriptions (db w) !! k) as Hcols.
      { intros h k. rewrite lookup_alter. case_decide; [subst|done].
        by destruct (user_subscriptions (db w) !! k). }
      destruct (users (db w) !! user_id s); simpl;
        [destruct (fetch_rejects env); simpl|];
        (repeat split; eauto; intros k Hk; apply Hsubs; congruence).
    + repeat split; eauto.
  - destruct (users (db w) !! user_id s); simpl;
      [destruct (fetch_rejects env); simpl|]; repeat split; eauto.
Qed.

(** [endSession] does not look at the status of the session: ended twice, a
    session is billed twice, each time from its [start_time] to the clock of
    the call, and carries the later [end_time]. *)
Theorem ending_twice_bills_twice env1 env2 sessionId w s subscriptionId sub :
  user_sessions (db w) !! sessionId = Some s →
  user_subscription_id s = Some subscriptionId →
  user_subscriptions (db w) !! subscriptionId = Some sub →
  (∀ c, fault env1 c = None) →
  (∀ c, fault env2 c = None) →
  let hours1 := hoursDeducted (durationMinutes (client_now env1) (start_time s)) in
  let hours2 := hoursDeducted (durationMinutes (client_now env2) (start_time s)) in
  let w' := run [(env1, End sessionId); (env2, End sessionId)] w in
  balance_of w' subscriptionId
  = Some (Z.max 0 (Z.max 0 (hours_remaining sub - hours1) - hours2))
  ∧ end_time <$> user_sessions (db w') !! sessionId = Some (Some (client_now env2))
  ∧ hours_deducted <$> user_sessions (db w') !! sessionId = Some (Some hours2)
  ∧ status_of w' sessionId = Some completed.
Proof.
  intros Hs Hlink Hsub Hserved1 Hserved2 hours1 hours2 w'.
  subst w'. unfold run, perform, status_of, balance_of. simpl.
  set (w1 := (endSession env1 sessionId w).1).
  pose proof (endSession_session_row env1 sessionId w s Hs
                (Hserved1 load_session) (Hserved1 update_session)) as Hrow1.
  destruct (endSession_linked env1 sessionId w s Hs
              (Hserved1 load_session) (Hserved1 update_session)
              subscriptionId sub Hlink Hsub (Hserved1 update_subscription)) as [Hsub1 _].
  fold w1 in Hrow1, Hsub1.
  rewrite (endSession_session_row env2 sessionId w1 _ Hrow1
             (Hserved2 load_session) (Hserved2 update_session)).
  rewrite (proj1 (endSession_linked env2 sessionId w1 _ Hrow1
                    (Hserved2 load_session) (Hserved2 update_session)
                    subscriptionId _ Hlink Hsub1 (Hserved2 update_subscription))).
  done.
Qed.

Lemma ending_twice_bills_twice_witness :
  let env1 := Club.env (61 * Club.minute) false in
  let env2 := Club.env (62 * Club.minute) false in
  let w' := run [(env1, End "s-1"); (env2, End "s-1")] (Club.one_session 5) in
  balance_of w' "sub-1" = Some 1
  ∧ end_time <$> user_sessions (db w') !! "s-1" = Some (Some (62 * Club.minute))
  ∧ hours_deducted <$> user_sessions (db w') !! "s-1" = Some (Some 2)
  ∧ status_of w' "s-1" = Some completed.
Proof.
  intros env1 env2.
  apply (ending_twice_bills_twice env1 env2 "s-1" (Club.one_session 5)
           (Club.session 0 active) "sub-1" (Club.subscription 5 sub_active));
    solve [reflexivity | vm_compute; reflexivity | intros c; reflexivity].
Defined.

(** The request sent to the webhook carries what was persisted: when the store
    has served the end of a session whose user row exists, one request is sent,
    whether or not [fetch] then rejects, with the times, minutes and hours of
    the session row and, for a linked subscription, the balance written; for a
    session without subscription it says 0 hours remaining. *)
Theorem webhook_body_is_persisted_state env sessionId w s u :
  user_sessions (db w) !! sessionId = Some s →
  users (db w) !! user_id s = Some u →
  fault env load_session = None →
  fault env update_session = None →
  (∀ subscriptionId, user_subscription_id s = Some subscriptionId →
     is_Some (user_subscriptions (db w) !! subscriptionId)
     ∧ fault env update_subscription = None) →
  let w' := (endSession env sessionId w).1 in
  ∃ body s',
    webhook_requests w' = (webhook_requests w ++ [body])%list
    ∧ user_sessions (db w') !! sessionId = Some s'
    ∧ action body = "session_ended"
    ∧ b_sessionId body = sessionId
    ∧ b_userId body = user_id s'
    ∧ c_name (customerData body) = name u
    ∧ c_email (customerData body) = email u
    ∧ d_start_time (sessionDetails body) = start_time s'
    ∧ Some (d_end_time (sessionDetails body)) = end_time s'
    ∧ Some (d_duration_minutes (sessionDetails body)) = duration_minutes s'
    ∧ Some (d_hours_deducted (sessionDetails body)) = hours_deducted s'
    ∧ match user_subscription_id s with
      | Some subscriptionId =>
          balance_of w' subscriptionId = Some (d_hours_remaining (sessionDetails body))
      | None => d_hours_remaining (sessionDetails body) = 0
      end.
Proof.
  intros Hs Hu Hload Hupd Hlinked w'. subst w'.
  pose proof (endSession_session_row env sessionId w s Hs Hload Hupd) as Hrow.
  destruct (user_subscription_id s) as [subscriptionId|] eqn:Hlink.
  - destruct (Hlinked _ eq_refl) as [[sub Hsub] Hserved].
    destruct (endSession_linked env sessionId w s Hs Hload Hupd subscriptionId sub
                Hlink Hsub Hserved) as [Hbal _].
    unfold balance_of. rewrite Hbal, Hrow. clear Hbal Hrow.
    exec_end. rewrite Hs, Hload. simpl. rewrite Hupd, Hlink. simpl.
    rewrite Hsub. simpl. rewrite Hserved, Hu. simpl.
    destruct (fetch_rejects env); simpl; eexists _, _; repeat split; reflexivity.
  - rewrite Hrow. clear Hrow.
    exec_end. rewrite Hs, Hload. simpl. rewrite Hupd, Hlink. simpl.
    rewrite Hu. simpl.
    destruct (fetch_rejects env); simpl; eexists _, _; repeat split; reflexivity.
Qed.

Lemma webhook_body_is_persisted_state_witness :
  let w' := (endSession (Club.env (125 * Club.minute) true) "s-1" (Club.one_session 1)).1 in
  ∃ body s',
    webhook_requests w' = [body]
    ∧ user_sessions (db w') !! "s-1" = Some s'
    ∧ action body = "session_ended"
    ∧ b_sessionId body = "s-1"
    ∧ b_userId body = user_id s'
    ∧ c_name (customerData body) = "Ann"
    ∧ c_email (customerData body) = "ann@example.org"
    ∧ d_start_time (sessionDetails body) = start_time s'
    ∧ Some (d_end_time (sessionDetails body)) = end_time s'
    ∧ Some (d_duration_minutes (sessionDetails body)) = duration_minutes s'
    ∧ Some (d_hours_deducted (sessionDetails body)) = hours_deducted s'
    ∧ balance_of w' "sub-1" = Some (d_hours_remaining (sessionDetails body)).
Proof.
  apply (webhook_body_is_persisted_state (Club.env (125 * Club.minute) true) "s-1"
           (Club.one_session 1) (Club.session 0 active) Club.ann).
  - vm_compute; reflexivity.
  - vm_compute; reflexivity.
  - reflexivity.
  - reflexivity.
  - intros subscriptionId [= <-]. split; [by eexists|reflexivity].
Defined.

(** The success toast reads the persisted duration as hours and minutes: for a
    session ended at or after its [start_time], with the store serving, it is
    [Session ended. Duration: Hh Mm. Hours deducted: D] with [M] below 60,
    [60 H + M] the persisted [duration_minutes] and [D] the persisted
    [hours_deducted]. *)
Theorem success_toast_reads_persisted_duration env sessionId w s :
  user_sessions (db w) !! sessionId = Some s →
  fault env load_session = None →
  fault env update_session = None →
  (∀ subscriptionId, user_subscription_id s = Some subscriptionId →
     is_Some (user_subscriptions (db w) !! subscriptionId)
     ∧ fault env update_subscription = None) →
  start_time s ≤ client_now env →
  let w' := (endSession env sessionId w).1 in
  ∃ H M D,
    toasts w'
    = (toasts w
       ++ [toast_success ("Session ended. Duration: " +:+ pretty H +:+ "h " +:+ pretty M
                            +:+ "m. Hours deducted: " +:+ pretty D)])%list
    ∧ 0 ≤ H ∧ 0 ≤ M < 60
    ∧ duration_minutes <$> user_sessions (db w') !! sessionId = Some (Some (60 * H + M))
    ∧ hours_deducted <$> user_sessions (db w') !! sessionId = Some (Some D).
Proof.
  intros Hs Hload Hupd Hlinked Htime w'. subst w'.
  rewrite (endSession_session_row env sessionId w s Hs Hload Hupd). simpl.
  set (minutes := durationMinutes (client_now env) (start_time s)).
  assert (0 ≤ minutes) as Hpos.
  { pose proof (durationMinutes_is_ceiling (client_now env) (start_time s)) as Hc.
    unfold is_ceiling in Hc. fold minutes in Hc. lia. }
  destruct (hours_and_minutes minutes Hpos) as (HH & HM & Hsum).
  exists (Math.floor (js_div minutes 60)), (js_rem minutes 60), (hoursDeducted minutes).
  rewrite Hsum. split; [|done].
  destruct (user_subscription_id s) as [subscriptionId|] eqn:Hlink.
  - destruct (Hlinked _ eq_refl) as [[sub Hsub] Hserved].
    apply (endSession_linked env sessionId w s Hs Hload Hupd subscriptionId sub
             Hlink Hsub Hserved).
  - by apply endSession_unlinked.
Qed.

Lemma success_toast_reads_persisted_duration_witness :
  let w' := (endSession (Club.env (125 * Club.minute) false) "s-1" (Club.one_session 1)).1 in
  ∃ H M D,
    toasts w'
    = [toast_success ("Session ended. Duration: " +:+ pretty H +:+ "h " +:+ pretty M
                        +:+ "m. Hours deducted: " +:+ pretty D)]
    ∧ 0 ≤ H ∧ 0 ≤ M < 60
    ∧ duration_minutes <$> user_sessions (db w') !! "s-1" = Some (Some (60 * H + M))
    ∧ hours_deducted <$> user_sessions (db w') !! "s-1" = Some (Some D).
Proof.
  apply (success_toast_reads_persisted_duration (Club.env (125 * Club.minute) false) "s-1"
           (Club.one_session 1) (Club.session 0 active)).
  - vm_compute; reflexivity.
  - reflexivity.
  - reflexivity.
  - intros subscriptionId [= <-]. split; [by eexists|reflexivity].
  - vm_compute. discriminate.
Defined.

(** ** The list of active sessions and the buttons *)

#[local] Instance later_first_total : Total later_first.
Proof. intros a b. unfold later_first. lia. Qed.

Lemma active_sessions_listing_elem d a :
  a ∈ active_sessions_listing d
  ↔ ∃ id s, user_sessions d !! id = Some s ∧ status s = active ∧ a = list_session d id s.
Proof.
  unfold active_sessions_listing. rewrite merge_sort_Permutation, list_elem_of_fmap.
  split.
  - intros ([id s] & -> & Hin).
    apply elem_of_map_to_list, map_lookup_filter_Some in Hin as [Hs Ha]. eauto.
  - intros (id & s & Hs & Ha & ->). exists (id, s). split; [done|].
    by apply elem_of_map_to_list, map_lookup_filter_Some.
Qed.

Lemma active_sessions_listing_ids d : NoDup (a_id <$> active_sessions_listing d).
Proof.
  unfold active_sessions_listing. rewrite merge_sort_Permutation, <- list_fmap_compose.
  apply (NoDup_fmap_fst (map_to_list (filter (λ kv, status kv.2 = active) (user_sessions d)))).
  - intros id s1 s2 H1%elem_of_map_to_list H2%elem_of_map_to_list. congruence.
  - apply NoDup_map_to_list.
Qed.

Lemma fetchActiveSessions_served p :
  world (fetchActiveSessions None p) = world p
  ∧ activeSessions (fetchActiveSessions None p) = active_sessions_listing (db (world p)).
Proof. unfold fetchActiveSessions. exec. done. Qed.

(** A served [fetchActiveSessions] holds the active sessions of the store and
    no other row, each once, the latest start first, with the user and the
    balance joined in; it shows no toast. *)
Theorem fetchActiveSessions_lists_active_sessions p :
  let p' := fetchActiveSessions None p in
  world p' = world p
  ∧ (∀ a, a ∈ activeSessions p'
          ↔ ∃ id s, user_sessions (db (world p)) !! id = Some s ∧ status s = active
                    ∧ a = list_session (db (world p)) id s)
  ∧ NoDup (a_id <$> activeSessions p')
  ∧ Sorted later_first (activeSessions p').
Proof.
  intros p'. subst p'. destruct (fetchActiveSessions_served p) as [-> ->].
  split; [done|]. split; [apply active_sessions_listing_elem|].
  split; [apply active_sessions_listing_ids|].
  apply (Sorted_merge_sort later_first).
Qed.

Lemma hasActiveSession_true l u :
  hasActiveSession l u = true ↔ ∃ a, a ∈ l ∧ a_user_id a = u_id u.
Proof.
  unfold hasActiveSession. rewrite existsb_exists.
  split; intros (a & Hin & Heq); exists a.
  - split; [by apply list_elem_of_In|by apply String.eqb_eq].
  - split; [by apply list_elem_of_In|by apply String.eqb_eq].
Qed.

(** After a served [fetchActiveSessions], the Start button of a user is
    disabled exactly when the user has an active session in the store, one or
    several, or is being started. *)
Theorem start_disabled_after_refresh p u :
  start_disabled (fetchActiveSessions None p) u = true
  ↔ startingSession (world p) = Some (u_id u)
    ∨ ∃ id s, user_sessions (db (world p)) !! id = Some s
              ∧ status s = active ∧ user_id s = u_id u.
Proof.
  unfold start_disabled. rewrite orb_true_iff, bool_decide_eq_true, hasActiveSession_true.
  destruct (fetchActiveSessions_served p) as [-> ->].
  split; (intros [Hstarting|Hactive]; [by left|right]).
  - destruct Hactive as (a & Hin & Hu).
    apply active_sessions_listing_elem in Hin as (id & s & Hs & Ha & ->). eauto.
  - destruct Hactive as (id & s & Hs & Ha & Hu).
    exists (list_session (db (world p)) id s). split; [|done].
    apply active_sessions_listing_elem. eauto.
Qed.

(** When the Start button of a user is enabled on a list just fetched, the
    check of [startSession], if served, does not refuse the user as already
    active. *)
Theorem enabled_start_is_not_refused_as_active env p u :
  start_disabled (fetchActiveSessions None p) u = false →
  fault env check_active = None →
  ∃ t, toasts (startSession env (u_id u) (world (fetchActiveSessions None p))).1
       = (toasts (world p) ++ [t])%list
       ∧ t ≠ AlreadyActive.
Proof.
  intros Henabled Hcheck.
  assert (∀ id s, user_sessions (db (world p)) !! id = Some s →
            user_id s = u_id u → status s ≠ active) as Hnone.
  { intros id s Hs Hu Ha.
    assert (start_disabled (fetchActiveSessions None p) u = true) as Hdis; [|congruence].
    unfold start_disabled. apply orb_true_iff. right. apply hasActiveSession_true.
    exists (list_session (db (world p)) id s). split; [|done].
    rewrite (proj2 (fetchActiveSessions_served p)).
    apply active_sessions_listing_elem. eauto. }
  rewrite (proj1 (fetchActiveSessions_served p)).
  exec_start. rewrite Hcheck.
  rewrite filter_none; [simpl|].
  2:{ intros k v Hk [? ?]. by eapply Hnone. }
  repeat (case_match; simplify_eq/=); eexists; (split; [reflexivity|discriminate]).
Qed.

Lemma enabled_start_is_not_refused_as_active_witness :
  let p := {| world := Club.no_session 0 sub_active; activeSessions := [] |} in
  let ann := {| u_id := "ann"; u_name := "Ann"; u_email := "ann@example.org" |} in
  ∃ t, toasts (startSession (Club.env 1000 false) "ann"
                 (world (fetchActiveSessions None p))).1
       = [t]
       ∧ t ≠ AlreadyActive.
Proof.
  intros p ann.
  apply (enabled_start_is_not_refused_as_active (Club.env 1000 false) p ann);
    vm_compute; reflexivity.
Defined.

Lemma startSession_success_inserts env userId w :
  toasts (startSession env userId w).1 = (toasts w ++ [SessionStarted])%list →
  ∃ subscriptionId staff,
    user_sessions (db (startSession env userId w).1)
    = <[gen_random_uuid env := new_session env userId subscriptionId (auth_id staff)]>
        (user_sessions (db w)).
Proof.
  exec_start.
  repeat (case_match; simplify_eq/=); intros Hok;
    try (apply app_inj_tail in Hok as [_ Hok]; discriminate Hok); eauto.
Qed.

(** After a start that showed the success toast, a served refresh lists the
    new session, with the start time the database stamped, and disables the
    Start button of that user. *)
Theorem started_session_is_listed env userId w stale :
  toasts (startSession env userId w).1 = (toasts w ++ [SessionStarted])%list →
  let p' := fetchActiveSessions None
              {| world := (startSession env userId w).1; activeSessions := stale |} in
  (∃ a, a ∈ activeSessions p'
        ∧ a_id a = gen_random_uuid env
        ∧ a_user_id a = userId
        ∧ a_start_time a = db_now env
        ∧ a_status a = active)
  ∧ (∀ u, u_id u = userId → start_disabled p' u = true).
Proof.
  intros Hok p'.
  destruct (startSession_success_inserts env userId w Hok) as (sub_id & staff & Hdb).
  set (s := new_session env userId sub_id (auth_id staff)) in *.
  set (d := db (startSession env userId w).1).
  assert (user_sessions d !! gen_random_uuid env = Some s) as Hs
    by (unfold d; rewrite Hdb; apply lookup_insert_eq).
  assert (list_session d (gen_random_uuid env) s ∈ activeSessions p') as Hin.
  { subst p'. rewrite (proj2 (fetchActiveSessions_served _)). simpl.
    apply active_sessions_listing_elem. by exists (gen_random_uuid env), s. }
  split.
  - by exists (list_session d (gen_random_uuid env) s).
  - intros u Hu. unfold start_disabled. apply orb_true_iff. right.
    apply hasActiveSession_true. exists (list_session d (gen_random_uuid env) s).
    by split.
Qed.

Lemma started_session_is_listed_witness :
  let w := Club.no_session 5 sub_active in
  let env := Club.env (3 * Club.day) false in
  let p' := fetchActiveSessions None
              {| world := (startSession env "ann" w).1; activeSessions := [] |} in
  (∃ a, a ∈ activeSessions p'
        ∧ a_id a = "s-new"
        ∧ a_user_id a = "ann"
        ∧ a_start_time a = 3 * Club.day
        ∧ a_status a = active)
  ∧ (∀ u, u_id u = "ann" → start_disabled p' u = true).
Proof.
  intros w env.
  apply (started_session_is_listed env "ann" w []). vm_compute. reflexivity.
Defined.

(** After an end whose update of the session was served, a served refresh no
    longer lists the session. *)
Theorem ended_session_is_not_listed env sessionId w s stale :
  user_sessions (db w) !! sessionId = Some s →
  fault env load_session = None →
  fault env update_session = None →
  let p' := fetchActiveSessions None
              {| world := (endSession env sessionId w).1; activeSessions := stale |} in
  ∀ a, a ∈ activeSessions p' → a_id a ≠ sessionId.
Proof.
  intros Hs Hload Hupd p' a Hin Hid. subst p'.
  rewrite (proj2 (fetchActiveSessions_served _)) in Hin. simpl in Hin.
  apply active_sessions_listing_elem in Hin as (id & s' & Hs' & Ha & ->).
  simpl in Hid. subst id.
  rewrite (endSession_session_row env sessionId w s Hs Hload Hupd) in Hs'.
  by simplify_eq.
Qed.

Lemma ended_session_is_not_listed_witness :
  let p' := fetchActiveSessions None
              {| world := (endSession (Club.env 1000 false) "s-1" (Club.one_session 5)).1;
                 activeSessions := [] |} in
  Forall (λ a, a_id a ≠ "s-1") (activeSessions p').
Proof.
  intros p'. apply Forall_forall.
  apply (ended_session_is_not_listed (Club.env 1000 false) "s-1" (Club.one_session 5)
           (Club.session 0 active) []);
    solve [reflexivity | vm_compute; reflexivity].
Defined.

(** ** The user search *)

Lemma append_cons c (s b : string) : String c s +:+ b = String c (s +:+ b).
Proof. reflexivity. Qed.

Lemma append_nil (b : string) : "" +:+ b = b.
Proof. reflexivity. Qed.

Lemma prefix_spec t s : String.prefix t s = true ↔ ∃ b, s = t +:+ b.
Proof.
  revert s. induction t as [|c t IH]; intros s.
  - split; [intros _; by exists s|by destruct s].
  - destruct s as [|c' s]; simpl.
    + split; [done|]. by intros [b ?].
    + setoid_rewrite append_cons.
      destruct (Ascii.ascii_dec c c') as [->|Hne].
      * rewrite IH. split; intros [b Hb]; exists b; congruence.
      * split; [done|]. intros [b Hb]. congruence.
Qed.

Lemma includes_nil t : includes "" t = String.prefix t "" || false.
Proof. reflexivity. Qed.

Lemma includes_cons c s t :
  includes (String c s) t = String.prefix t (String c s) || includes s t.
Proof. reflexivity. Qed.

(** [s.includes(t)] is true exactly when [s] is [a ++ t ++ b] for some [a], [b]. *)
Lemma includes_spec s t : includes s t = true ↔ ∃ a b, s = a +:+ t +:+ b.
Proof.
  induction s as [|c s IH]; [rewrite includes_nil|rewrite includes_cons].
  - rewrite orb_false_r, prefix_spec. split.
    + intros [b Hb]. by exists "", b.
    + intros (a & b & Hab). destruct a as [|c a]; [by exists b|].
      rewrite append_cons in Hab. done.
  - rewrite orb_true_iff, prefix_spec, IH. split.
    + intros [[b Hb]|(a & b & Hab)]; [by exists "", b|].
      exists (String c a), b. rewrite append_cons. by rewrite Hab.
    + intros ([|c' a] & b & Hab); [left; by exists b|].
      rewrite append_cons in Hab. right. exists a, b. congruence.
Qed.

Lemma string_app_assoc (a b c : string) : (a +:+ b) +:+ c = a +:+ (b +:+ c).
Proof.
  induction a as [|x a IH]; [done|]. by rewrite !append_cons, IH.
Qed.

Lemma includes_trans s t r :
  includes s t = true → includes t r = true → includes s r = true.
Proof.
  rewrite !includes_spec. intros (a & b & ->) (a' & b' & ->).
  exists (a +:+ a'), (b' +:+ b). by rewrite !string_app_assoc.
Qed.

Lemma includes_empty s : includes s "" = true.
Proof. apply includes_spec. by exists "", s. Qed.

(** A search term that is empty in lower case, as the empty term is, hides no
    user. *)
Theorem empty_search_shows_all_users toLowerCase users searchTerm :
  toLowerCase searchTerm = "" →
  filteredUsers toLowerCase users searchTerm = users.
Proof.
  intros Hempty. unfold filteredUsers.
  induction users as [|u users IH]; simpl; [done|].
  unfold matches at 1. rewrite Hempty, includes_empty. simpl. by rewrite IH.
Qed.

Lemma empty_search_shows_all_users_witness :
  let users := [ {| u_id := "ann"; u_name := "Ann"; u_email := "ann@example.org" |};
                 {| u_id := "raj"; u_name := "Raj"; u_email := "raj@example.org" |} ] in
  filteredUsers ascii_toLowerCase users "" = users.
Proof.
  intros users. apply (empty_search_shows_all_users ascii_toLowerCase users "").
  reflexivity.
Defined.

(** Extending the search term narrows the result: when the old term occurs,
    in lower case, in the new one, the users found for the new term are those
    found for it among the users found for the old one. *)
Theorem longer_search_narrows toLowerCase users old new :
  includes (toLowerCase new) (toLowerCase old) = true →
  filteredUsers toLowerCase (filteredUsers toLowerCase users old) new
  = filteredUsers toLowerCase users new
  ∧ ∀ u, u ∈ filteredUsers toLowerCase users new → u ∈ filteredUsers toLowerCase users old.
Proof.
  intros Hocc.
  assert (∀ u, matches toLowerCase new u = true → matches toLowerCase old u = true) as Himp.
  { intros u. unfold matches. rewrite !orb_true_iff.
    intros [Hn|He]; [left|right]; eapply includes_trans; eauto. }
  split.
  - unfold filteredUsers. induction users as [|u users IH]; simpl; [done|].
    destruct (matches toLowerCase old u) eqn:Hold; simpl.
    + by rewrite IH.
    + destruct (matches toLowerCase new u) eqn:Hnew; [|done].
      apply Himp in Hnew. congruence.
  - intros u. unfold filteredUsers. rewrite !list_elem_of_In, !filter_In.
    intros [Hin Hm]. auto.
Qed.

Lemma longer_search_narrows_witness :
  let users := [ {| u_id := "ann"; u_name := "Ann"; u_email := "ann@example.org" |};
                 {| u_id := "dan"; u_name := "Dan"; u_email := "dan@example.org" |};
                 {| u_id := "raj"; u_name := "Raj"; u_email := "raj@example.org" |} ] in
  filteredUsers ascii_toLowerCase (filteredUsers ascii_toLowerCase users "AN") "Dan"
  = filteredUsers ascii_toLowerCase users "Dan"
  ∧ ∀ u, u ∈ filteredUsers ascii_toLowerCase users "Dan"
         → u ∈ filteredUsers ascii_toLowerCase users "AN".
Proof.
  intros users. apply (longer_search_narrows ascii_toLowerCase users "AN" "Dan").
  vm_compute. reflexivity.
Defined.

(** ** Sequences, once more *)

(** Once the only active session of a user is ended, the check of
    [startSession] no longer refuses the user as already active. *)
Theorem start_is_open_again_after_end env env' sessionId w s :
  one_active_per_user w →
  user_sessions (db w) !! sessionId = Some s →
  status s = active →
  fault env load_session = None →
  fault env update_session = None →
  fault env' check_active = None →
  let w1 := (endSession env sessionId w).1 in
  ∃ t, toasts (startSession env' (user_id s) w1).1 = (toasts w1 ++ [t])%list
       ∧ t ≠ AlreadyActive.
Proof.
  intros Hinv Hs Ha Hload Hupd Hcheck w1.
  pose proof (endSession_session_row env sessionId w s Hs Hload Hupd) as Hrow.
  fold w1 in Hrow.
  assert (∀ id s', user_sessions (db w1) !! id = Some s' →
            user_id s' = user_id s → status s' ≠ active) as Hnone.
  { intros id s' Hs' Hu Ha'.
    destruct (decide (id = sessionId)) as [->|Hne].
    - rewrite Hrow in Hs'. by simplify_eq.
    - assert (user_sessions (db w) !! id = Some s') as Hold.
      { destruct (endSession_sessions env sessionId w) as [Heq|(T & m & h & Heq)];
          fold w1 in Heq; rewrite Heq in Hs'; [done|].
        by rewrite lookup_alter_ne in Hs'. }
      apply Hne. by eapply (Hinv id sessionId s' s). }
  exec_start. rewrite Hcheck.
  rewrite filter_none; [simpl|].
  2:{ intros k v Hk [? ?]. by eapply Hnone. }
  repeat (case_match; simplify_eq/=); eexists; (split; [reflexivity|discriminate]).
Qed.

Lemma start_is_open_again_after_end_witness :
  let w1 := (endSession (Club.env (61 * Club.minute) false) "s-1" (Club.one_session 5)).1 in
  ∃ t, toasts (startSession (Club.env (62 * Club.minute) false) "ann" w1).1
       = (toasts w1 ++ [t])%list
       ∧ t ≠ AlreadyActive.
Proof.
  apply (start_is_open_again_after_end (Club.env (61 * Club.minute) false)
           (Club.env (62 * Club.minute) false) "s-1" (Club.one_session 5)
           (Club.session 0 active)).
  - intros id1 id2 s1 s2 Hs1 Hs2 _ _ _.
    destruct (proj1 (lookup_singleton_Some (M:=gmap string) _ _ _ _) Hs1) as [<- _].
    by destruct (proj1 (lookup_singleton_Some (M:=gmap string) _ _ _ _) Hs2) as [<- _].
  - vm_compute; reflexivity.
  - reflexivity.
  - reflexivity.
  - reflexivity.
  - reflexivity.
Defined.

Lemma run_keeps_one_active_witness :
  let env := Club.env (3 * Club.day) false in
  one_active_per_user
    (run [(env, Start "ann"); (env, Start "ann"); (env, End "s-new")]
       (Club.no_session 5 sub_active)).
Proof.
  intros env.
  apply (run_keeps_one_active
           [(env, Start "ann"); (env, Start "ann"); (env, End "s-new")]
           (Club.no_session 5 sub_active)).
  - repeat constructor; intros e He; discriminate He.
  - intros id1 id2 s1 s2 Hs1. destruct (lookup_empty_Some (M:=gmap string) _ _ Hs1).
Defined.

Lemma run_keeps_balances_nonnegative_witness :
  balances_nonnegative
    (run [(Club.env (125 * Club.minute) false, End "s-1");
          (Club.env (126 * Club.minute) false, Start "ann")]
       (Club.one_session 1)).
Proof.
  apply (run_keeps_balances_nonnegative
           [(Club.env (125 * Club.minute) false, End "s-1");
            (Club.env (126 * Club.minute) false, Start "ann")]
           (Club.one_session 1)).
  intros k sub Hk.
  destruct (proj1 (lookup_singleton_Some (M:=gmap string) _ _ _ _) Hk) as [_ <-].
  simpl. lia.
Defined.

Lemma completed_is_final_witness :
  let w := Club.world (Club.store {[ "sub-1" := Club.subscription 5 sub_active ]}
                                  {[ "s-1" := Club.session 0 completed ]}) in
  status_of (run [(Club.env 1000 false, End "s-1"); (Club.env 2000 false, Start "ann")] w)
    "s-1"
  = Some completed.
Proof.
  intros w.
  apply (completed_is_final
           [(Club.env 1000 false, End "s-1"); (Club.env 2000 false, Start "ann")] w "s-1").
  vm_compute. reflexivity.
Defined.

Lemma endSession_partial_failure_witness :
  let env := {| user := Some Club.bob; client_now := 61 * Club.minute;
                webhook_now := 61 * Club.minute; db_now := 0;
                gen_random_uuid := "s-new";
                fault := λ c, match c with
                              | update_subscription => Some {| code := "40001" |}
                              | _ => None
                              end;
                fetch_rejects := false |} in
  let w' := (endSession env "s-1" (Club.one_session 5)).1 in
  status_of w' "s-1" = Some completed
  ∧ balance_of w' "sub-1" = Some 5
  ∧ toasts w' = [EndStoreError].
Proof.
  intros env.
  apply (endSession_partial_failure env "s-1" (Club.one_session 5)
           (Club.session 0 active) "sub-1" (Club.subscription 5 sub_active)
           {| code := "40001" |});
    solve [reflexivity | vm_compute; reflexivity].
Defined.

(** ** The handlers with the refresh they launch *)

Lemma fetchActiveSessions_failed e p :
  world (fetchActiveSessions (Some e) p)
  = (toast RefreshError (console_error "Error fetching active sessions:" (PgError e) (world p)).1).1
  ∧ activeSessions (fetchActiveSessions (Some e) p) = activeSessions p.
Proof. unfold fetchActiveSessions. exec. done. Qed.

(** A click on Start, once every request has been answered or has failed:
    [startSession] does not throw, re-enables the Start button and sends
    nothing to the webhook.  It shows one of its four refusals, and then the
    list held is untouched; or it shows the success toast and the list is
    fetched anew; or, when that refresh fails, the success toast is followed
    by the toast of the refresh and the list held is the old one. *)
Theorem startSession_then_refresh_outcome env refresh userId p :
  let p' := startSession_then_refresh env refresh userId p in
  (startSession env userId (world p)).2 = Normal ()
  ∧ startingSession (world p') = None
  ∧ endingSession (world p') = endingSession (world p)
  ∧ webhook_requests (world p') = webhook_requests (world p)
  ∧ db (world p') = db (startSession env userId (world p)).1
  ∧ ((∃ t, t ∈ [AlreadyActive; NoSubscription; InsufficientBalance; StartStoreError]
           ∧ toasts (world p') = (toasts (world p) ++ [t])%list
           ∧ activeSessions p' = activeSessions p)
     ∨ (refresh = None
        ∧ toasts (world p') = (toasts (world p) ++ [SessionStarted])%list
        ∧ activeSessions p' = active_sessions_listing (db (world p')))
     ∨ (is_Some refresh
        ∧ toasts (world p') = (toasts (world p) ++ [SessionStarted; RefreshError])%list
        ∧ activeSessions p' = activeSessions p)).
Proof.
  intros p'. subst p'. unfold startSession_then_refresh, shows_success.
  destruct (startSession_own_outcome env userId (world p))
    as (Hret & Hstarting & Hending & Hhook & t & Htoasts & Ht).
  split; [exact Hret|]. rewrite Htoasts, last_snoc.
  assert (t = SessionStarted
          ∨ (t ∈ [AlreadyActive; NoSubscription; InsufficientBalance; StartStoreError]
             ∧ ∃ msg, t = toast_error msg)) as [->|[Hrefusal [msg ->]]].
  { repeat (apply elem_of_cons in Ht as [->|Ht]); [right..|by left|set_solver];
      (split; [set_solver|by eexists]). }
  - simpl. destruct refresh as [e|].
    + destruct (fetchActiveSessions_failed e
                  {| world := (startSession env userId (world p)).1;
                     activeSessions := activeSessions p |}) as [-> ->].
      simpl. rewrite Htoasts, <- app_assoc. do 4 (split; [done|]).
      right. right. split; [by eexists|done].
    + destruct (fetchActiveSessions_served
                  {| world := (startSession env userId (world p)).1;
                     activeSessions := activeSessions p |}) as [-> ->].
      simpl. do 4 (split; [done|]). right. left. done.
  - simpl. do 4 (split; [done|]). left. exists (toast_error msg). done.
Qed.

(** A click on End, once every request and the [fetch] have been answered or
    have failed: [endSession] does not throw and re-enables the End button.
    It shows the failure toast, and then nothing was sent to the webhook and
    the list held is untouched; or it shows the success toast, with at most
    one request to the webhook, and the list is fetched anew; or, when that
    refresh fails, the success toast is followed by the toast of the refresh
    and the list held is the old one. *)
Theorem endSession_then_refresh_outcome env refresh sessionId p :
  let p' := endSession_then_refresh env refresh sessionId p in
  (endSession env sessionId (world p)).2 = Normal ()
  ∧ endingSession (world p') = None
  ∧ startingSession (world p') = startingSession (world p)
  ∧ db (world p') = db (endSession env sessionId (world p)).1
  ∧ (webhook_requests (world p') = webhook_requests (world p)
     ∨ ∃ body, webhook_requests (world p') = (webhook_requests (world p) ++ [body])%list
               ∧ b_sessionId body = sessionId)
  ∧ ((toasts (world p') = (toasts (world p) ++ [EndStoreError])%list
      ∧ webhook_requests (world p') = webhook_requests (world p)
      ∧ activeSessions p' = activeSessions p)
     ∨ (∃ minutes hours,
          let success := toast_success (session_ended_message minutes hours) in
          (refresh = None
           ∧ toasts (world p') = (toasts (world p) ++ [success])%list
           ∧ activeSessions p' = active_sessions_listing (db (world p')))
          ∨ (is_Some refresh
             ∧ toasts (world p') = (toasts (world p) ++ [success; RefreshError])%list
             ∧ activeSessions p' = activeSessions p))).
Proof.
  intros p'. subst p'. unfold endSession_then_refresh, shows_success.
  destruct (endSession_own_outcome env sessionId (world p))
    as (Hret & Hending & Hstarting & [[Htoasts Hhook]|(m & h & Htoasts & Hhook)]).
  - split; [exact Hret|]. rewrite Htoasts, last_snoc. simpl.
    do 3 (split; [done|]). split; [by left|]. left. done.
  - split; [exact Hret|]. rewrite Htoasts, last_snoc. simpl. destruct refresh as [e|].
    + destruct (fetchActiveSessions_failed e
                  {| world := (endSession env sessionId (world p)).1;
                     activeSessions := activeSessions p |}) as [-> ->].
      simpl. rewrite Htoasts, <- app_assoc. do 3 (split; [done|]). split; [exact Hhook|].
      right. exists m, h. right. split; [by eexists|done].
    + destruct (fetchActiveSessions_served
                  {| world := (endSession env sessionId (world p)).1;
                     activeSessions := activeSessions p |}) as [-> ->].
      simpl. do 3 (split; [done|]). split; [exact Hhook|].
      right. exists m, h. left. done.
Qed.
